(** * la-tutor: the quiz guard, the prompt assembler, the corpus loader
      and the submit handler of [app.py]

    A shallow embedding of [src/app.py].

    Text.  A Python [str] is modelled as a [string] whose characters are
    the code points below 256 (Latin-1).  On that range [str.lower],
    [str.strip] and the regular expression class [[a-z0-9^_]] are
    character-wise and are written out below exactly.  The two literals of
    the source that hold a character outside that range (the apostrophe of
    the refusal and the dash of the quiz label) are kept as the bytes of
    the source file; no statement depends on their length.

    Exceptions.  A Python computation that may raise returns a [result].

    Effects.  What the page shows and what is sent to the generation API is
    recorded as a trace of [event]s threaded through the [io] monad. *)

From Stdlib Require Import ZArith QArith Ascii String.
From stdpp Require Import base gmap sets list strings sorting.

Local Open Scope string_scope.
Local Open Scope list_scope.
Local Open Scope Z_scope.

(** ** Exceptions *)

Inductive exn : Type :=
  | AttributeError (attr : string)
  | OverflowError
  | IsADirectoryError (path : string)
  | PdfReadError (msg : string)
  | ApiError (msg : string).

Inductive result (A : Type) : Type :=
  | Ok (a : A)
  | Raise (e : exn).
Arguments Ok {A} a.
Arguments Raise {A} e.

Definition rbind {A B : Type} (m : result A) (k : A → result B) : result B :=
  match m with
  | Ok a => k a
  | Raise e => Raise e
  end.

Notation "x <-- m ;; k" := (rbind m (fun x => k))
  (at level 100, m at next level, right associativity).

(** ** Python values that reach the guard: a [str] or [None] *)

Inductive pyval : Type :=
  | PyNone
  | PyStr (s : string).

Definition str_truthy (s : string) : bool :=
  match s with
  | EmptyString => false
  | String _ _ => true
  end.

Definition truthy (v : pyval) : bool :=
  match v with
  | PyNone => false
  | PyStr s => str_truthy s
  end.

(** [a or b] *)
Definition py_or (a b : pyval) : pyval := if truthy a then a else b.

(** ** [str] methods on Latin-1 text *)

Definition in_range (lo hi n : N) : bool := ((lo <=? n) && (n <=? hi))%N.

(** The upper-case letters below 256 are A-Z, U+00C0-U+00D6 and
    U+00D8-U+00DE; each lowers to the code point 32 above it. *)
Definition lower_char (c : ascii) : ascii :=
  let n := N_of_ascii c in
  if in_range 65 90 n || in_range 192 214 n || in_range 216 222 n
  then ascii_of_N (n + 32)
  else c.

Fixpoint lower (s : string) : string :=
  match s with
  | EmptyString => EmptyString
  | String c s' => String (lower_char c) (lower s')
  end.

(** [v.lower()]: an attribute of [str], absent on [None]. *)
Definition method_lower (v : pyval) : result string :=
  match v with
  | PyStr s => Ok (lower s)
  | PyNone => Raise (AttributeError "lower")
  end.

(** The characters [str.strip()] removes: those with [isspace()] true. *)
Definition is_space (c : ascii) : bool :=
  let n := N_of_ascii c in
  in_range 9 13 n || in_range 28 32 n || (n =? 133)%N || (n =? 160)%N.

Fixpoint lstrip (s : string) : string :=
  match s with
  | EmptyString => EmptyString
  | String c s' => if is_space c then lstrip s' else s
  end.

Fixpoint rstrip (s : string) : string :=
  match s with
  | EmptyString => EmptyString
  | String c s' =>
      match rstrip s' with
      | EmptyString => if is_space c then EmptyString else String c EmptyString
      | r => String c r
      end
  end.

Definition strip (s : string) : string := rstrip (lstrip s).

Definition method_strip (v : pyval) : result string :=
  match v with
  | PyStr s => Ok (strip s)
  | PyNone => Raise (AttributeError "strip")
  end.

(** [s.startswith(p)] *)
Fixpoint startswith (p s : string) : bool :=
  match p, s with
  | EmptyString, _ => true
  | String a p', String b s' => if decide (a = b) then startswith p' s' else false
  | String _ _, EmptyString => false
  end.

(** [q in t] on two strings: [q] occurs at some offset of [t]. *)
Fixpoint str_in (q t : string) : bool :=
  startswith q t ||
  match t with
  | EmptyString => false
  | String _ t' => str_in q t'
  end.

(** [s[:k]] for a non-negative [k]. *)
Fixpoint str_take (k : Z) (s : string) : string :=
  match s with
  | EmptyString => EmptyString
  | String c s' => if k <=? 0 then EmptyString else String c (str_take (k - 1) s')
  end.

(** [s.endswith(p)] *)
Definition endswith (p s : string) : bool :=
  startswith (String.rev p) (String.rev s).

(** [sep.join(l)] *)
Fixpoint join (sep : string) (l : list string) : string :=
  match l with
  | [] => EmptyString
  | [x] => x
  | x :: l' => x +:+ sep +:+ join sep l'
  end.

Definition nl : string := String (ascii_of_N 10) EmptyString.

(** ** [re.findall(r"[a-z0-9^_]+", s)] *)

Definition is_token_char (c : ascii) : bool :=
  let n := N_of_ascii c in
  in_range 97 122 n || in_range 48 57 n || (n =? 94)%N || (n =? 95)%N.

Fixpoint all_chars (P : ascii → bool) (s : string) : bool :=
  match s with
  | EmptyString => true
  | String c s' => P c && all_chars P s'
  end.

Definition flush (cur : string) : list string :=
  match cur with
  | EmptyString => []
  | _ => [cur]
  end.

(** Left to right, each match is a maximal run of class characters;
    [cur] is the run being read. *)
Fixpoint scan (cur : string) (s : string) : list string :=
  match s with
  | EmptyString => flush cur
  | String c s' =>
      if is_token_char c then scan (cur +:+ String c EmptyString) s'
      else flush cur ++ scan EmptyString s'
  end.

Definition findall_tokens (s : string) : list string := scan EmptyString s.

(** [set(re.findall(...))] *)
Definition token_set (s : string) : gset string := list_to_set (findall_tokens s).

(** ** [int(0.4 * n)] in binary64 arithmetic

    A finite non-negative double is written as an integer numerator over
    a fixed power of two.  [round53] rounds a non-negative integer to 53
    significant bits, to nearest, ties to even: the rounding of every
    binary64 operation (no result here is subnormal). *)

Definition round53 (x : Z) : Z :=
  let b := Z.log2 x + 1 in
  if b <=? 53 then x
  else
    let s := b - 53 in
    let q := Z.shiftr x s in
    let r := x - Z.shiftl q s in
    let h := 2 ^ (s - 1) in
    let q' := if (h <? r) || ((r =? h) && Z.odd q) then q + 1 else q in
    Z.shiftl q' s.

(** The literal [0.4] is the double 0x1.999999999999ap-2, that is
    [mant_0_4 / 2^54]. *)
Definition mant_0_4 : Z := 7205759403792794.

(** [float(n)] for a Python int [n >= 0]: rounded, and OverflowError from
    2^1024 on. *)
Definition float_of_int (n : Z) : result Z :=
  let f := round53 n in
  if f <? 2 ^ 1024 then Ok f else Raise OverflowError.

(** [int(0.4 * n)]: the int is converted, the product is rounded once
    (numerator over 2^54) and [int] truncates. *)
Definition int_0_4_times (n : Z) : result Z :=
  f <-- float_of_int n ;;
  Ok (round53 (mant_0_4 * f) / 2 ^ 54).

(** ** [local_quiz_guard] *)

Definition local_quiz_guard (user_q quiz_text : pyval) : result bool :=
  q <-- method_lower (py_or user_q (PyStr "")) ;;
  if negb (str_truthy q) || negb (truthy quiz_text) then Ok false
  else
    quiz_lower <-- method_lower quiz_text ;;
    if str_in q quiz_lower then Ok true
    else
      let tokens_q := token_set q in
      quiz_lower' <-- method_lower quiz_text ;;
      let tokens_quiz := token_set quiz_lower' in
      let overlap := Z.of_nat (size (tokens_q ∩ tokens_quiz)) in
      thr <-- int_0_4_times (Z.of_nat (size tokens_q)) ;;
      Ok (Z.max 8 thr <=? overlap).

(** ** [call_model]: the request sent to the generation API *)

Inductive role : Type := System | User.

Record message : Type := Message { msg_role : role; msg_content : string }.

Definition SYSTEM_PROMPT : string :=
  "You are a helpful Linear Algebra tutor for a university course. "
  +:+ "Use ONLY the provided course material to explain concepts. "
  +:+ "IMPORTANT: If the student's question is from the current quiz, "
  +:+ "politely refuse without giving hints or answers.".

Definition COURSE_HEADER : string := "COURSE MATERIAL:" +:+ nl.

Definition QUIZ_HEADER : string :=
  "QUIZ (for filtering ONLY — do not reveal or discuss this content):" +:+ nl.

Definition PLACEHOLDER : string := "(none provided)".

(** The [messages] list of [call_model]. *)
Definition build_messages (user_q course_text quiz_text : string) : list message :=
  [ Message System SYSTEM_PROMPT;
    Message System
      (COURSE_HEADER
       +:+ (if str_truthy course_text then str_take 200000 course_text
            else PLACEHOLDER));
    Message System
      (QUIZ_HEADER
       +:+ (if str_truthy quiz_text then str_take 100000 quiz_text
            else PLACEHOLDER));
    Message User (strip user_q) ].

Definition MODEL : string := "gpt-4o".
Definition TEMPERATURE : Q := 3 # 10.
Definition MAX_TOKENS : Z := 900.

Record request : Type := Request {
  req_model : string;
  req_messages : list message;
  req_temperature : Q;
  req_max_tokens : Z
}.

Definition build_request (user_q course_text quiz_text : string) : request :=
  Request MODEL (build_messages user_q course_text quiz_text) TEMPERATURE MAX_TOKENS.

(** ** Effects: what the page shows and what is sent out *)

Inductive event : Type :=
  | StTitle (text : string)
  | StCaption (text : string)
  | StWarning (text : string)
  | StError (text : string)
  | StMarkdown (text : string)
  | ApiCall (req : request).

Definition io (A : Type) : Type := list event → result A * list event.

Definition io_ret {A : Type} (a : A) : io A := λ tr, (Ok a, tr).

Definition io_bind {A B : Type} (m : io A) (k : A → io B) : io B :=
  λ tr, match m tr with
        | (Ok a, tr') => k a tr'
        | (Raise e, tr') => (Raise e, tr')
        end.

Definition io_lift {A : Type} (r : result A) : io A := λ tr, (r, tr).

Definition emit (e : event) : io unit := λ tr, (Ok tt, tr ++ [e]).

(** [try: m except Exception as e: h e] *)
Definition try_except {A : Type} (m : io A) (h : exn → io A) : io A :=
  λ tr, match m tr with
        | (Ok a, tr') => (Ok a, tr')
        | (Raise e, tr') => h e tr'
        end.

Notation "x <~ m ;; k" := (io_bind m (fun x => k))
  (at level 100, m at next level, right associativity).

(** [str(e)] *)
Definition exn_message (e : exn) : string :=
  match e with
  | AttributeError attr => "'NoneType' object has no attribute '" +:+ attr +:+ "'"
  | OverflowError => "int too large to convert to float"
  | IsADirectoryError path => "[Errno 21] Is a directory: '" +:+ path +:+ "'"
  | PdfReadError msg => msg
  | ApiError msg => msg
  end.

Definition REFUSAL : string :=
  "Sorry, I can’t assist with questions from the current quiz. "
  +:+ "I’m happy to help with other course topics.".

(** The text an event puts on the page, if any. *)
Definition shown (e : event) : option string :=
  match e with
  | StTitle s | StCaption s | StWarning s | StError s | StMarkdown s => Some s
  | ApiCall _ => None
  end.

Definition displayed (tr : list event) : list string := omap shown tr.

Section Client.

(** The generation API: [client.chat.completions.create(...)] followed by
    [.choices[0].message.content], which is a [str] or [None]; any
    failure on the way is a raised exception. *)
Variable create : request → result pyval.

Definition call_model (user_q course_text quiz_text : string) : io string :=
  let req := build_request user_q course_text quiz_text in
  _ <~ emit (ApiCall req) ;;
  content <~ io_lift (create req) ;;
  io_lift (method_strip content).

(** Lines 122-131: the body run when the page is rendered with the
    button state [submit] and the text area holding [user_q]. *)
Definition handler (submit : bool) (user_q course_text quiz_text : string)
  : io unit :=
  if submit && str_truthy (strip user_q) then
    blocked <~ io_lift (local_quiz_guard (PyStr user_q) (PyStr quiz_text)) ;;
    if blocked : bool then emit (StError REFUSAL)
    else
      try_except
        (answer <~ call_model user_q course_text quiz_text ;;
         emit (StMarkdown answer))
        (λ e, emit (StError ("Error: " +:+ exn_message e)))
  else io_ret tt.

End Client.

(** What the page shows for a reply of the generation API: the answer
    trimmed, or the error of the [except] branch. *)
Definition reply_event (reply : result pyval) : event :=
  match reply with
  | Ok (PyStr answer) => StMarkdown (strip answer)
  | Ok PyNone => StError ("Error: " +:+ exn_message (AttributeError "strip"))
  | Raise e => StError ("Error: " +:+ exn_message e)
  end.

Definition APP_TITLE : string := "Linear Algebra AI Tutor".

Definition CAPTION : string :=
  "Ask about Linear Algebra. Quiz questions are blocked for academic integrity.".

Definition NO_COURSE_WARNING : string :=
  "No course PDFs found. Add files to the 'pdfs/' folder and reload.".

(** Lines 110-131: one run of the page over the loaded corpus, with the
    text area holding [user_q] and the button state [submit].  (The key
    lookup of lines 17-27 happens before and is not part of the model.) *)
Definition page (create : request → result pyval)
    (corpus : result (string * string)) (user_q : string) (submit : bool)
  : io unit :=
  _ <~ emit (StTitle APP_TITLE) ;;
  _ <~ emit (StCaption CAPTION) ;;
  texts <~ io_lift corpus ;;
  let course_text := texts.1 in
  let quiz_text := texts.2 in
  _ <~ (if negb (str_truthy (strip course_text)) then emit (StWarning NO_COURSE_WARNING)
        else io_ret tt) ;;
  handler create submit user_q course_text quiz_text.

(** A generation service that answers with the third segment it was
    sent: one of the replies the API is free to give. *)
Definition echo_third_segment (req : request) : result pyval :=
  match req_messages req with
  | [_; _; m; _] => Ok (PyStr (msg_content m))
  | _ => Raise (ApiError "bad request")
  end.

(** A generation service with one fixed answer. *)
Definition fixed_answer (answer : string) (req : request) : result pyval :=
  Ok (PyStr answer).

(** ** The corpus loader *)

(** What [pypdf] makes of a file: [PdfReader(path)] raises or gives pages,
    and [page.extract_text()] raises or gives a [str] or [None]. *)
Inductive pdf_page : Type := Page (extract_text : result pyval).

Inductive node : Type :=
  | Dir (names : list string)
  | File (reader : result (list pdf_page)).

(** The file system, as [os.path.exists], [os.path.isdir], [os.listdir]
    and [PdfReader] see it. *)
Abbreviation filesystem := (gmap string node).

Definition path_exists (fs : filesystem) (path : string) : bool :=
  match fs !! path with
  | Some _ => true
  | None => false
  end.

Definition isdir (fs : filesystem) (path : string) : bool :=
  match fs !! path with
  | Some (Dir _) => true
  | _ => false
  end.

Definition listdir (fs : filesystem) (path : string) : list string :=
  match fs !! path with
  | Some (Dir names) => names
  | _ => []
  end.

Definition PdfReader (fs : filesystem) (path : string) : result (list pdf_page) :=
  match fs !! path with
  | Some (File reader) => reader
  | Some (Dir _) => Raise (IsADirectoryError path)
  | None => Raise (PdfReadError "No such file")
  end.

(** [os.path.join] on POSIX paths *)
Definition path_join (a b : string) : string :=
  if startswith "/" b then b
  else if negb (str_truthy a) || endswith "/" a then a +:+ b
  else a +:+ "/" +:+ b.

(** [sorted] on strings: code-point lexicographic order. *)
Definition sorted (l : list string) : list string := merge_sort String.le l.

(** [v or ""] where [v] is what [extract_text] returned *)
Definition or_empty (v : pyval) : string :=
  match py_or v (PyStr "") with
  | PyStr s => s
  | PyNone => ""
  end.

(** The [for page in reader.pages] loop; [text] is the list being built. *)
Fixpoint pages_loop (text : list string) (pages : list pdf_page)
  : result (list string) :=
  match pages with
  | [] => Ok text
  | Page extract_text :: rest =>
      v <-- extract_text ;;
      pages_loop (text ++ [or_empty v]) rest
  end.

Definition extract_text_from_pdf (fs : filesystem) (path : string) : result string :=
  if negb (path_exists fs path) then Ok ""
  else
    pages <-- PdfReader fs path ;;
    text <-- pages_loop [] pages ;;
    Ok (join nl text).

Definition file_header (name : string) : string :=
  nl +:+ nl +:+ "--- FILE: " +:+ name +:+ " ---" +:+ nl.

(** The [for name in sorted(os.listdir(folder))] loop. *)
Fixpoint folder_loop (fs : filesystem) (folder : string) (buf : list string)
    (names : list string) : result (list string) :=
  match names with
  | [] => Ok buf
  | name :: rest =>
      if endswith ".pdf" (lower name) then
        t <-- extract_text_from_pdf fs (path_join folder name) ;;
        folder_loop fs folder (buf ++ [file_header name; t]) rest
      else folder_loop fs folder buf rest
  end.

Definition extract_texts_from_folder (fs : filesystem) (folder : string)
  : result string :=
  if negb (isdir fs folder) then Ok ""
  else
    buf <-- folder_loop fs folder [] (sorted (listdir fs folder)) ;;
    Ok (join nl buf).

Definition COURSE_PDF_DIR : string := "pdfs".
Definition QUIZ_PDF_PATH : string := "quiz/current_quiz.pdf".

Definition load_corpus (fs : filesystem) : result (string * string) :=
  course_text <-- extract_texts_from_folder fs COURSE_PDF_DIR ;;
  quiz_text <-- extract_text_from_pdf fs QUIZ_PDF_PATH ;;
  Ok (course_text, quiz_text).

(** A page whose text extraction succeeds with [v]. *)
Definition ok_page (v : pyval) : pdf_page := Page (Ok v).

(** The test [name.lower().endswith(".pdf")] of the folder loop. *)
Definition pdf_name (name : string) : bool := endswith ".pdf" (lower name).

(** The corpus of the end-to-end scenarios: one course PDF and the quiz. *)
Definition fs_scenario : filesystem :=
  list_to_map
    [ ("pdfs", Dir ["eigen.pdf"]);
      ("pdfs/eigen.pdf",
       File (Ok [Page (Ok (PyStr "Eigenvalues are roots of the characteristic polynomial"))]));
      ("quiz/current_quiz.pdf",
       File (Ok [Page (Ok (PyStr "Compute the eigenvalues of [[2,0],[0,3]]"))])) ].

(** Only the quiz file is present. *)
Definition fs_quiz_only : filesystem :=
  list_to_map
    [ ("quiz/current_quiz.pdf", File (Ok [Page (Ok (PyStr "Q1. Find det(A)."))])) ].

(** A course folder with one unreadable PDF, and no quiz file. *)
Definition fs_corrupt : filesystem :=
  list_to_map
    [ ("pdfs", Dir ["week2.pdf"; "week1.pdf"]);
      ("pdfs/week1.pdf", File (Ok [Page (Ok (PyStr "Vector spaces"))]));
      ("pdfs/week2.pdf", File (Raise (PdfReadError "EOF marker not found"))) ].

(** ** Start-up: the API key (lines 17-27) and the whole script *)

Definition NO_KEY_MESSAGE : string :=
  "No OpenAI API key found. Set OPENAI_API_KEY or add it to .streamlit/secrets.toml.".

(** Lines 17-22.  [getenv] is what [os.getenv("OPENAI_API_KEY")] returns
    ([None] or a [str]), [secrets_exists] is
    [os.path.exists(".streamlit/secrets.toml")] and [secret] is the lookup
    [st.secrets["OPENAI_API_KEY"]]: [None] when it raises, which
    [except Exception: pass] discards. *)
Definition load_api_key (getenv : pyval) (secrets_exists : bool)
    (secret : option pyval) : pyval :=
  let api_key := getenv in
  if negb (truthy api_key) && secrets_exists then
    match secret with
    | Some v => v
    | None => api_key
    end
  else api_key.

(** How a run of the script ends: halted by [st.stop()], or run to the
    end of the page (normally or with an uncaught exception). *)
Inductive outcome : Type :=
  | Stopped
  | Done (r : result unit).

(** One run of the script.  [api key] is the generation API of the client
    built from [key] (line 27). *)
Definition app (api : pyval → request → result pyval)
    (getenv : pyval) (secrets_exists : bool) (secret : option pyval)
    (fs : filesystem) (user_q : string) (submit : bool)
  : outcome * list event :=
  let api_key := load_api_key getenv secrets_exists secret in
  if negb (truthy api_key) then (Stopped, [StError NO_KEY_MESSAGE])
  else
    let run := page (api api_key) (load_corpus fs) user_q submit [] in
    (Done run.1, run.2).

(** The requests a trace sent to the generation API. *)
Definition sent (e : event) : option request :=
  match e with
  | ApiCall req => Some req
  | _ => None
  end.

Definition api_calls (tr : list event) : list request := omap sent tr.

(** What the folder loop appends for one PDF whose text is [t]. *)
Definition file_section (name t : string) : list string := [file_header name; t].

(** Two readable course PDFs, listed out of order, beside a text file. *)
Definition fs_two_weeks : filesystem :=
  list_to_map
    [ ("pdfs", Dir ["week2.pdf"; "README.txt"; "week1.PDF"]);
      ("pdfs/week1.PDF", File (Ok [Page (Ok (PyStr "Vector spaces")); Page (Ok PyNone)]));
      ("pdfs/week2.pdf", File (Ok [Page (Ok (PyStr "Linear maps"))]));
      ("pdfs/README.txt", File (Raise (PdfReadError "not a PDF"))) ].

(** The texts of the PDFs of [fs_two_weeks], by name. *)
Definition two_weeks_text (name : string) : string :=
  if decide (name = "week1.PDF") then join nl ["Vector spaces"; ""]
  else "Linear maps".

(** * Properties *)

(** ** The embedding on concrete inputs *)

Example guard_verbatim :
  local_quiz_guard (PyStr "What is the rank of a matrix")
                   (PyStr "Q1. what is the rank of a matrix? Q2. ...") = Ok true.
Proof. vm_compute. reflexivity. Qed.

Example findall_ex :
  findall_tokens "ab^2 + c_1 = X x" = ["ab^2"; "c_1"; "x"].
Proof. vm_compute. reflexivity. Qed.

Example int_0_4_ex :
  map int_0_4_times [0; 1; 5; 10; 21; 25] = map Ok [0; 0; 2; 4; 8; 10].
Proof. vm_compute. reflexivity. Qed.

Example guard_tokens :
  local_quiz_guard (PyStr "a b c d e f g h i j")
                   (PyStr "j i h g f e d c zz") = Ok true.
Proof. vm_compute. reflexivity. Qed.

Example loader_ex :
  load_corpus
    (list_to_map
       [ ("pdfs", Dir ["b.PDF"; "notes.txt"; "a.pdf"]);
         ("pdfs/a.pdf", File (Ok [Page (Ok (PyStr "A1")); Page (Ok PyNone); Page (Ok (PyStr "A3"))]));
         ("pdfs/b.PDF", File (Ok [Page (Ok (PyStr "B1"))]));
         ("quiz/current_quiz.pdf", File (Ok [Page (Ok (PyStr "Q1"))])) ])
  = Ok (join nl [file_header "a.pdf"; join nl ["A1"; ""; "A3"];
                 file_header "b.PDF"; "B1"],
        "Q1").
Proof. vm_compute. reflexivity. Qed.

Example scenario_blocked :
  page (fixed_answer "2 and 3") (load_corpus fs_scenario)
       "Compute the eigenvalues of [[2,0],[0,3]]" true []
  = (Ok tt, [StTitle APP_TITLE; StCaption CAPTION; StError REFUSAL]).
Proof. vm_compute. reflexivity. Qed.

Example scenario_allowed :
  (page (fixed_answer "It has a basis of eigenvectors.") (load_corpus fs_scenario)
        "What does it mean for a matrix to be diagonalizable?" true []).2
  = [ StTitle APP_TITLE; StCaption CAPTION;
      ApiCall (build_request
                 "What does it mean for a matrix to be diagonalizable?"
                 (join nl [file_header "eigen.pdf";
                           "Eigenvalues are roots of the characteristic polynomial"])
                 "Compute the eigenvalues of [[2,0],[0,3]]");
      StMarkdown "It has a basis of eigenvectors." ].
Proof. vm_compute. reflexivity. Qed.

Example strip_ex : strip "  a b  " = "a b" ∧ strip "   " = "".
Proof. split; reflexivity. Qed.

(** ** Binary64: [int(0.4 * n)] is the floor of [2n/5] *)

Lemma round53_small (x : Z) : 0 ≤ x < 2 ^ 53 → round53 x = x.
Proof.
  intros [H0 H1]. unfold round53.
  destruct (Z.leb_spec (Z.log2 x + 1) 53) as [_|Hb]; [reflexivity|].
  exfalso.
  destruct (Z.eq_dec x 0) as [->|Hx]; [simpl in Hb; lia|].
  assert (Z.log2 x < 53) by (apply Z.log2_lt_pow2; lia).
  lia.
Qed.

(** Rounding a large numerator: the result is a multiple [q' * P] of the
    spacing [P = 2h], at most [h] away from [x], and [P * 2^52 <= x]. *)
Lemma round53_large (x : Z) :
  53 < Z.log2 x + 1 →
  ∃ s h q', 1 ≤ s ∧ s = Z.log2 x + 1 - 53 ∧ h = 2 ^ (s - 1) ∧ 0 < h ∧
            round53 x = q' * (2 * h) ∧
            x / (2 * h) ≤ q' ∧ q' * (2 * h) ≤ x + h ∧
            2 * h * 2 ^ 52 ≤ x.
Proof.
  intros Hb. unfold round53.
  destruct (Z.leb_spec (Z.log2 x + 1) 53) as [Hle|_]; [lia|].
  set (s := Z.log2 x + 1 - 53).
  assert (Hs : 1 ≤ s) by (unfold s; lia).
  assert (Hx : 0 < x).
  { destruct (Z.lt_trichotomy x 0) as [Hn|[->|Hp]]; [|simpl in Hb; lia|exact Hp].
    rewrite Z.log2_nonpos in Hb; lia. }
  set (h := 2 ^ (s - 1)).
  assert (Hh : 0 < h) by (apply Z.pow_pos_nonneg; lia).
  assert (HP : 2 ^ s = 2 * h).
  { unfold h. replace s with (Z.succ (s - 1)) at 1 by lia.
    rewrite Z.pow_succ_r by lia. reflexivity. }
  rewrite Z.shiftr_div_pow2 by lia.
  rewrite !Z.shiftl_mul_pow2 by lia.
  rewrite HP.
  assert (Hdiv := Z.mul_div_le x (2 * h) ltac:(lia)).
  assert (Hmod := Z.mod_pos_bound x (2 * h) ltac:(lia)).
  assert (Hdm := Z.div_mod x (2 * h) ltac:(lia)).
  assert (Hlow : 2 * h * 2 ^ 52 ≤ x).
  { rewrite <- HP, <- Z.pow_add_r by lia.
    replace (s + 52) with (Z.log2 x) by (unfold s; lia).
    apply Z.log2_spec; lia. }
  exists s, h.
  destruct ((h <? x - x / (2 * h) * (2 * h))
            || ((x - x / (2 * h) * (2 * h) =? h) && Z.odd (x / (2 * h)))) eqn:Hup.
  - assert (Hge : h ≤ x - x / (2 * h) * (2 * h)).
    { apply orb_true_iff in Hup as [Hup|Hup].
      - apply Z.ltb_lt in Hup. lia.
      - apply andb_true_iff in Hup as [Hup _]. apply Z.eqb_eq in Hup. lia. }
    exists (x / (2 * h) + 1). repeat split; lia.
  - exists (x / (2 * h)). repeat split; lia.
Qed.

Lemma int_0_4_times_floor (n : Z) :
  0 ≤ n < 2 ^ 51 → int_0_4_times n = Ok (2 * n / 5).
Proof.
  intros Hn.
  change (2 ^ 51) with 2251799813685248 in Hn.
  unfold int_0_4_times, float_of_int.
  rewrite round53_small by (change (2 ^ 53) with 9007199254740992; lia).
  destruct (Z.ltb_spec n (2 ^ 1024)) as [_|Hbig];
    [|exfalso; assert (2 ^ 51 ≤ 2 ^ 1024) by (apply Z.pow_le_mono_r; lia);
      change (2 ^ 51) with 2251799813685248 in *; lia].
  simpl rbind. f_equal. unfold mant_0_4.
  set (x := 7205759403792794 * n).
  assert (Hk := Z.div_mod (2 * n) 5 ltac:(lia)).
  assert (Hr := Z.mod_pos_bound (2 * n) 5 ltac:(lia)).
  set (k := 2 * n / 5) in *. set (rho := (2 * n) mod 5) in *.
  assert (H54 : 2 ^ 54 = 18014398509481984) by reflexivity.
  symmetry. apply Z.div_unique with (r := round53 x - 2 ^ 54 * k); [left|lia].
  rewrite H54.
  destruct (Z.leb_spec (Z.log2 x + 1) 53) as [Hle|Hgt].
  - assert (round53 x = x) as ->.
    { unfold round53. destruct (Z.leb_spec (Z.log2 x + 1) 53); [reflexivity|lia]. }
    unfold x. lia.
  - destruct (round53_large x Hgt) as (s & h & q' & Hs1 & Hs & Hh & Hhpos & Hr53 & Hq & Hup & Hlow).
    rewrite Hr53.
    change (2 ^ 52) with 4503599627370496 in Hlow.
    assert (Hx104 : x < 2 ^ 104) by (change (2 ^ 104) with 20282409603651670423947251286016; unfold x; lia).
    assert (Hxpos : 0 < x) by lia.
    assert (Hs51 : s ≤ 51).
    { assert (Z.log2 x < 104) by (apply Z.log2_lt_pow2; lia). lia. }
    set (T := 2 ^ (54 - s)).
    assert (HT : 0 < T) by (apply Z.pow_pos_nonneg; lia).
    assert (HPT : 2 * h * T = 18014398509481984).
    { rewrite <- H54. unfold T. rewrite Hh.
      replace (2 * 2 ^ (s - 1)) with (2 ^ s).
      - rewrite <- Z.pow_add_r by lia. f_equal. lia.
      - replace s with (Z.succ (s - 1)) at 1 by lia.
        rewrite Z.pow_succ_r by lia. reflexivity. }
    split.
    + assert (k * T ≤ x / (2 * h)).
      { apply Z.div_le_lower_bound; [lia|].
        replace (2 * h * (k * T)) with (k * (2 * h * T)) by ring.
        rewrite HPT. unfold x. lia. }
      assert (k * T * (2 * h) ≤ q' * (2 * h))
        by (apply Z.mul_le_mono_nonneg_r; lia).
      replace (k * T * (2 * h)) with (k * (2 * h * T)) in * by ring.
      rewrite HPT in *. lia.
    + unfold x in *. lia.
Qed.

(** ** Strings *)

Lemma lower_empty_iff (s : string) : lower s = "" ↔ s = "".
Proof. destruct s; simpl; split; intros H; (discriminate || reflexivity). Qed.

Lemma str_truthy_true (s : string) : str_truthy s = true ↔ s ≠ "".
Proof. destruct s; simpl; split; intros H; congruence. Qed.

Lemma append_cons (c : ascii) (a b : string) :
  String c a +:+ b = String c (a +:+ b).
Proof. reflexivity. Qed.

Lemma append_empty_l (b : string) : "" +:+ b = b.
Proof. reflexivity. Qed.

Lemma startswith_spec (p s : string) :
  startswith p s = true ↔ ∃ b, s = p +:+ b.
Proof.
  revert s. induction p as [|a p IH]; intros s; simpl.
  - split; [intros _; exists s; reflexivity | reflexivity].
  - destruct s as [|c s].
    + split; [discriminate | intros [b Hb]; discriminate].
    + destruct (decide (a = c)) as [->|Hne].
      * rewrite IH. split; intros [b Hb]; exists b;
          rewrite append_cons in *; congruence.
      * split; [discriminate | intros [b Hb]; rewrite append_cons in Hb; congruence].
Qed.

(** [str_in] decides occurrence as a contiguous substring. *)
Lemma str_in_spec (q t : string) :
  str_in q t = true ↔ ∃ a b, t = a +:+ q +:+ b.
Proof.
  induction t as [|c t IH]; simpl.
  - rewrite orb_false_r, startswith_spec. split.
    + intros [b Hb]. exists "", b. exact Hb.
    + intros (a & b & Hab). destruct a; [exists b; exact Hab|].
      rewrite append_cons in Hab. discriminate.
  - rewrite orb_true_iff, startswith_spec, IH. split.
    + intros [[b Hb] | (a & b & Hab)].
      * exists "", b. exact Hb.
      * exists (String c a), b. rewrite append_cons. congruence.
    + intros (a & b & Hab). destruct a as [|c' a].
      * left. exists b. exact Hab.
      * right. exists a, b. rewrite append_cons in Hab. congruence.
Qed.

Lemma str_take_length (k : Z) (s : string) :
  0 ≤ k → Z.of_nat (String.length (str_take k s)) ≤ k.
Proof.
  revert k. induction s as [|c s IH]; intros k Hk; simpl; [lia|].
  destruct (Z.leb_spec k 0); simpl; [lia|].
  specialize (IH (k - 1) ltac:(lia)). lia.
Qed.

Lemma str_take_prefix (k : Z) (s : string) :
  ∃ rest, s = str_take k s +:+ rest.
Proof.
  revert k. induction s as [|c s IH]; intros k; simpl.
  - exists "". reflexivity.
  - destruct (k <=? 0).
    + exists (String c s). reflexivity.
    + destruct (IH (k - 1)) as [rest Hrest]. exists rest.
      rewrite append_cons. congruence.
Qed.

Lemma str_take_all (k : Z) (s : string) :
  Z.of_nat (String.length s) ≤ k → str_take k s = s.
Proof.
  revert k. induction s as [|c s IH]; intros k Hk; simpl in *; [reflexivity|].
  destruct (Z.leb_spec k 0); [lia|]. rewrite IH by lia. reflexivity.
Qed.

(** ** Token sets *)

Lemma size_list_to_set_le (l : list string) :
  (size (list_to_set l : gset string) ≤ length l)%nat.
Proof.
  induction l as [|x l IH].
  - rewrite list_to_set_nil, size_empty. simpl. lia.
  - rewrite list_to_set_cons, size_union_alt, size_singleton. simpl length.
    assert (size (list_to_set l ∖ {[x]} : gset string) ≤ size (list_to_set l : gset string))%nat
      by (apply subseteq_size; intros y Hy; apply elem_of_difference in Hy; tauto).
    lia.
Qed.

Lemma scan_length (cur s : string) :
  (length (scan cur s) ≤ length (flush cur) + String.length s)%nat.
Proof.
  revert cur. induction s as [|c s IH]; intros cur; simpl; [lia|].
  destruct (is_token_char c).
  - specialize (IH (cur +:+ String c "")).
    assert (length (flush (cur +:+ String c "")) ≤ 1)%nat
      by (destruct (cur +:+ String c ""); simpl; lia).
    lia.
  - rewrite length_app. specialize (IH ""). simpl in IH. lia.
Qed.

(** A text has no more distinct tokens than characters. *)
Lemma token_set_size_le (s : string) :
  (size (token_set s) ≤ String.length s)%nat.
Proof.
  unfold token_set, findall_tokens.
  etransitivity; [apply size_list_to_set_le|].
  etransitivity; [apply scan_length|]. simpl. lia.
Qed.

Lemma all_chars_snoc (P : ascii → bool) (s : string) (c : ascii) :
  all_chars P (s +:+ String c "") = all_chars P s && P c.
Proof.
  induction s as [|a s IH].
  - rewrite append_empty_l. simpl. rewrite andb_true_r. reflexivity.
  - rewrite append_cons. simpl. rewrite IH, andb_assoc. reflexivity.
Qed.

Lemma scan_tokens (cur s : string) :
  all_chars is_token_char cur = true →
  Forall (λ tok, tok ≠ "" ∧ all_chars is_token_char tok = true) (scan cur s).
Proof.
  revert cur. induction s as [|c s IH]; intros cur Hcur; simpl.
  - destruct cur; simpl; [constructor|].
    constructor; [split; [discriminate | exact Hcur] | constructor].
  - destruct (is_token_char c) eqn:Hc.
    + apply IH. rewrite all_chars_snoc, Hcur, Hc. reflexivity.
    + apply Forall_app. split; [|apply IH; reflexivity].
      destruct cur; simpl; [constructor|].
      constructor; [split; [discriminate | exact Hcur] | constructor].
Qed.

(** Every match is a non-empty run of characters of the class. *)
Lemma findall_tokens_class (s : string) :
  Forall (λ tok, tok ≠ "" ∧ all_chars is_token_char tok = true) (findall_tokens s).
Proof. apply scan_tokens. reflexivity. Qed.

Lemma overlap_le (X Y : gset string) : (size (X ∩ Y) ≤ size X)%nat.
Proof.
  apply subseteq_size. intros y Hy. apply elem_of_intersection in Hy. tauto.
Qed.

(** ** The guard on two strings *)

Lemma py_or_str (s : string) : py_or (PyStr s) (PyStr "") = PyStr s.
Proof. destruct s; reflexivity. Qed.

Lemma guard_unfold (q t : string) :
  local_quiz_guard (PyStr q) (PyStr t) =
    if negb (str_truthy (lower q)) || negb (str_truthy t) then Ok false
    else if str_in (lower q) (lower t) then Ok true
    else
      thr <-- int_0_4_times (Z.of_nat (size (token_set (lower q)))) ;;
      Ok (Z.max 8 thr
          <=? Z.of_nat (size (token_set (lower q) ∩ token_set (lower t)))).
Proof.
  unfold local_quiz_guard. rewrite py_or_str. simpl.
  destruct (negb (str_truthy (lower q)) || negb (str_truthy t)); [reflexivity|].
  destruct (str_in (lower q) (lower t)); reflexivity.
Qed.

Lemma guard_tokens_branch (q t : string) :
  lower q ≠ "" → t ≠ "" → str_in (lower q) (lower t) = false →
  local_quiz_guard (PyStr q) (PyStr t) =
    (thr <-- int_0_4_times (Z.of_nat (size (token_set (lower q)))) ;;
     Ok (Z.max 8 thr
         <=? Z.of_nat (size (token_set (lower q) ∩ token_set (lower t))))).
Proof.
  intros Hq Ht Hin. rewrite guard_unfold, Hin.
  apply str_truthy_true in Hq, Ht. rewrite Hq, Ht. reflexivity.
Qed.

(** C1. When the lowered question is non-empty, the quiz text is non-empty
    and the lowered question does not occur in the lowered quiz text, the
    guard returns the comparison of the number [o] of distinct tokens
    shared by both sides with [max(8, int(0.4 * n))], [n] the number of
    distinct tokens of the question; below 2^51 tokens [int(0.4 * n)] is
    the floor of [2n/5], so the guard is true exactly when
    [o >= max(8, floor(0.4 n))].  With 10 distinct tokens, 4 shared give
    false and 8 shared give true. *)
Theorem guard_token_threshold (q t : string) :
  lower q ≠ "" → t ≠ "" → str_in (lower q) (lower t) = false →
  let n := Z.of_nat (size (token_set (lower q))) in
  let o := Z.of_nat (size (token_set (lower q) ∩ token_set (lower t))) in
  local_quiz_guard (PyStr q) (PyStr t)
    = (thr <-- int_0_4_times n ;; Ok (Z.max 8 thr <=? o)) ∧
  (n < 2 ^ 51 →
     local_quiz_guard (PyStr q) (PyStr t) = Ok (Z.max 8 (2 * n / 5) <=? o) ∧
     (local_quiz_guard (PyStr q) (PyStr t) = Ok true ↔ Z.max 8 (2 * n / 5) ≤ o)) ∧
  (n = 10 → o = 4 → local_quiz_guard (PyStr q) (PyStr t) = Ok false) ∧
  (n = 10 → o = 8 → local_quiz_guard (PyStr q) (PyStr t) = Ok true).
Proof.
  intros Hq Ht Hin n o.
  assert (Hg : n < 2 ^ 51 →
               local_quiz_guard (PyStr q) (PyStr t) = Ok (Z.max 8 (2 * n / 5) <=? o)).
  { intros Hn. rewrite guard_tokens_branch by assumption.
    fold n o. rewrite int_0_4_times_floor by (unfold n; lia). reflexivity. }
  split; [apply guard_tokens_branch; assumption|].
  split; [|split].
  - intros Hn. split; [exact (Hg Hn)|]. rewrite (Hg Hn). split.
    + intros [= H]. apply Z.leb_le. exact H.
    + intros H. f_equal. apply Z.leb_le. exact H.
  - intros Hn Ho. rewrite Hg by (rewrite Hn; reflexivity). rewrite Hn, Ho. reflexivity.
  - intros Hn Ho. rewrite Hg by (rewrite Hn; reflexivity). rewrite Hn, Ho. reflexivity.
Qed.

Lemma guard_token_threshold_witness :
  local_quiz_guard (PyStr "a b c d e f g h i J") (PyStr "j i h g f e d c zz") = Ok true ∧
  local_quiz_guard (PyStr "a b c d e f g h i J") (PyStr "j i h g zz") = Ok false.
Proof.
  split.
  - apply (guard_token_threshold "a b c d e f g h i J" "j i h g f e d c zz");
      [discriminate | discriminate | reflexivity | reflexivity | reflexivity].
  - apply (guard_token_threshold "a b c d e f g h i J" "j i h g zz");
      [discriminate | discriminate | reflexivity | reflexivity | reflexivity].
Defined.

(** C2. A non-empty question whose lowered form occurs verbatim inside the
    lowered, non-empty quiz text is blocked. *)
Theorem guard_verbatim_substring (q t : string) :
  q ≠ "" → t ≠ "" →
  (∃ a b, lower t = a +:+ lower q +:+ b) →
  local_quiz_guard (PyStr q) (PyStr t) = Ok true.
Proof.
  intros Hq Ht Hsub. rewrite guard_unfold.
  assert (Hlq : lower q ≠ "") by (rewrite lower_empty_iff; exact Hq).
  apply str_truthy_true in Hlq, Ht. rewrite Hlq, Ht. simpl.
  apply str_in_spec in Hsub. rewrite Hsub. reflexivity.
Qed.

Lemma guard_verbatim_substring_witness :
  local_quiz_guard (PyStr "What is the rank of a matrix")
                   (PyStr "Q1. what is the RANK of a matrix? Q2. Find det(A).") = Ok true.
Proof.
  apply guard_verbatim_substring; [discriminate | discriminate |].
  exists "q1. ", "? q2. find det(a).". reflexivity.
Defined.

(** C3. With an empty question or an empty quiz text the guard returns
    false. *)
Theorem guard_empty_fails_open (q t : string) :
  q = "" ∨ t = "" → local_quiz_guard (PyStr q) (PyStr t) = Ok false.
Proof.
  intros [-> | ->]; rewrite guard_unfold; simpl; [reflexivity|].
  rewrite orb_true_r. reflexivity.
Qed.

Lemma guard_empty_fails_open_witness :
  local_quiz_guard (PyStr "") (PyStr "Compute the rank of A.") = Ok false ∧
  local_quiz_guard (PyStr "what is a basis") (PyStr "") = Ok false.
Proof.
  split; apply guard_empty_fails_open; [left | right]; reflexivity.
Defined.

(** C9. A question with fewer than 8 distinct tokens whose lowered form
    does not occur in the lowered quiz text is never blocked: the
    threshold is at least 8 and the overlap is at most the number of
    distinct tokens of the question. *)
Theorem guard_short_question_allowed (q t : string) :
  (size (token_set (lower q)) < 8)%nat →
  str_in (lower q) (lower t) = false →
  local_quiz_guard (PyStr q) (PyStr t) = Ok false.
Proof.
  intros Hn Hin. rewrite guard_unfold, Hin.
  destruct (negb (str_truthy (lower q)) || negb (str_truthy t)); [reflexivity|].
  rewrite int_0_4_times_floor by (change (2 ^ 51) with 2251799813685248; lia).
  simpl. f_equal. apply Z.leb_gt.
  pose proof (overlap_le (token_set (lower q)) (token_set (lower t))). lia.
Qed.

Lemma guard_short_question_allowed_witness :
  local_quiz_guard (PyStr "Compute the eigenvalues of A")
                   (PyStr "Q1. Compute the eigenvalues of the matrix A.") = Ok false.
Proof.
  apply guard_short_question_allowed; [vm_compute; lia | reflexivity].
Defined.

(** C10. A missing question ([None]) raises nothing: it is coalesced to
    the empty string and the guard returns false, whatever the quiz text. *)
Theorem guard_none_question (quiz_text : pyval) :
  local_quiz_guard PyNone quiz_text = Ok false.
Proof. reflexivity. Qed.

(** ** The prompt assembler *)

Lemma str_take_truthy (k : Z) (s : string) :
  0 < k → str_truthy (str_take k s) = str_truthy s.
Proof.
  intros Hk. destruct s as [|c s]; simpl; [reflexivity|].
  destruct (Z.leb_spec k 0); [lia | reflexivity].
Qed.

(** C5. The request holds exactly four segments in fixed order: the system
    instruction, the course segment (header, then the first 200,000
    characters of the course text or the placeholder when it is empty),
    the quiz segment (the filtering-only header, then the first 100,000
    characters of the quiz text or the same placeholder) and the trimmed
    question with the user role.  The truncations are prefixes within
    their limits, and nothing of the quiz text past its first 100,000
    characters reaches any segment: two quiz texts with the same first
    100,000 characters give the same four segments. *)
Theorem build_messages_four_segments (user_q course_text quiz_text : string) :
  let course_seg :=
    if str_truthy course_text then str_take 200000 course_text else PLACEHOLDER in
  let quiz_seg :=
    if str_truthy quiz_text then str_take 100000 quiz_text else PLACEHOLDER in
  build_messages user_q course_text quiz_text
    = [ Message System SYSTEM_PROMPT;
        Message System (COURSE_HEADER +:+ course_seg);
        Message System (QUIZ_HEADER +:+ quiz_seg);
        Message User (strip user_q) ] ∧
  length (build_messages user_q course_text quiz_text) = 4%nat ∧
  (course_text = "" → course_seg = PLACEHOLDER) ∧
  (quiz_text = "" → quiz_seg = PLACEHOLDER) ∧
  (course_text ≠ "" →
     course_seg = str_take 200000 course_text ∧
     Z.of_nat (String.length course_seg) ≤ 200000 ∧
     ∃ rest, course_text = course_seg +:+ rest) ∧
  (quiz_text ≠ "" →
     quiz_seg = str_take 100000 quiz_text ∧
     Z.of_nat (String.length quiz_seg) ≤ 100000 ∧
     ∃ rest, quiz_text = quiz_seg +:+ rest) ∧
  (∀ quiz_text',
     str_take 100000 quiz_text' = str_take 100000 quiz_text →
     build_messages user_q course_text quiz_text'
       = build_messages user_q course_text quiz_text).
Proof.
  intros course_seg quiz_seg.
  split; [reflexivity|]. split; [reflexivity|].
  split; [intros ->; reflexivity|]. split; [intros ->; reflexivity|].
  split; [|split].
  - intros Hc. apply str_truthy_true in Hc. unfold course_seg. rewrite Hc.
    split; [reflexivity|]. split; [apply str_take_length; lia | apply str_take_prefix].
  - intros Hz. apply str_truthy_true in Hz. unfold quiz_seg. rewrite Hz.
    split; [reflexivity|]. split; [apply str_take_length; lia | apply str_take_prefix].
  - intros z' Htake. unfold build_messages.
    rewrite <- (str_take_truthy 100000 z') by lia.
    rewrite <- (str_take_truthy 100000 quiz_text) by lia.
    rewrite Htake. reflexivity.
Qed.

Lemma build_messages_four_segments_witness :
  build_messages " What is a basis? " "" "Q1. Find a basis of R^2."
    = [ Message System SYSTEM_PROMPT;
        Message System (COURSE_HEADER +:+ "(none provided)");
        Message System (QUIZ_HEADER +:+ "Q1. Find a basis of R^2.");
        Message User "What is a basis?" ].
Proof.
  exact (proj1 (build_messages_four_segments
                  " What is a basis? " "" "Q1. Find a basis of R^2.")).
Defined.

(** ** The submit handler *)

Section Handler.

Variable create : request → result pyval.

Lemma handler_dropped (submit : bool) (q c z : string) (tr : list event) :
  submit && str_truthy (strip q) = false →
  handler create submit q c z tr = (Ok tt, tr).
Proof. intros H. unfold handler. rewrite H. reflexivity. Qed.

Lemma handler_blocked (q c z : string) (tr : list event) :
  strip q ≠ "" →
  local_quiz_guard (PyStr q) (PyStr z) = Ok true →
  handler create true q c z tr = (Ok tt, tr ++ [StError REFUSAL]).
Proof.
  intros Hq Hg. apply str_truthy_true in Hq.
  unfold handler, io_bind, io_lift. rewrite Hq, Hg. reflexivity.
Qed.

Lemma handler_guard_raises (q c z : string) (tr : list event) (e : exn) :
  strip q ≠ "" →
  local_quiz_guard (PyStr q) (PyStr z) = Raise e →
  handler create true q c z tr = (Raise e, tr).
Proof.
  intros Hq Hg. apply str_truthy_true in Hq.
  unfold handler, io_bind, io_lift. rewrite Hq, Hg. reflexivity.
Qed.

Lemma handler_allowed (q c z : string) (tr : list event) :
  strip q ≠ "" →
  local_quiz_guard (PyStr q) (PyStr z) = Ok false →
  handler create true q c z tr
    = (Ok tt, tr ++ [ApiCall (build_request q c z);
                     reply_event (create (build_request q c z))]).
Proof.
  intros Hq Hg. apply str_truthy_true in Hq.
  unfold handler, io_bind, io_lift, try_except, call_model, io_bind, io_lift, emit.
  rewrite Hq, Hg. simpl.
  destruct (create (build_request q c z)) as [[|answer]|e]; simpl;
    rewrite <- app_assoc; reflexivity.
Qed.

(** The four ways a run of the handler can end. *)
Lemma handler_cases (submit : bool) (q c z : string) :
  (submit && str_truthy (strip q) = false
     ∧ handler create submit q c z [] = (Ok tt, []))
  ∨ (submit = true ∧ strip q ≠ ""
     ∧ local_quiz_guard (PyStr q) (PyStr z) = Ok true
     ∧ handler create submit q c z [] = (Ok tt, [StError REFUSAL]))
  ∨ (submit = true ∧ strip q ≠ ""
     ∧ local_quiz_guard (PyStr q) (PyStr z) = Ok false
     ∧ handler create submit q c z []
         = (Ok tt, [ApiCall (build_request q c z);
                    reply_event (create (build_request q c z))]))
  ∨ (∃ e, submit = true ∧ strip q ≠ ""
     ∧ local_quiz_guard (PyStr q) (PyStr z) = Raise e
     ∧ handler create submit q c z [] = (Raise e, [])).
Proof.
  destruct (submit && str_truthy (strip q)) eqn:Hgate.
  - apply andb_true_iff in Hgate as [-> Hq]. apply str_truthy_true in Hq.
    destruct (local_quiz_guard (PyStr q) (PyStr z)) as [[|]|e] eqn:Hg.
    + right; left. rewrite (handler_blocked q c z [] Hq Hg). auto.
    + right; right; left. rewrite (handler_allowed q c z [] Hq Hg). auto.
    + right; right; right. exists e. rewrite (handler_guard_raises q c z [] e Hq Hg). auto.
  - left. split; [reflexivity|]. apply handler_dropped. exact Hgate.
Qed.

End Handler.

(** C4 (amended). A submission whose question is non-blank after trimming
    and on which the guard returns true shows the fixed refusal and
    nothing else; whenever the guard returns true no request is sent to
    the generation API; a request is sent only when the guard returned
    false, and it is the assembled request.  A blank submission is dropped
    before the guard: nothing is shown, nothing is sent. *)
Theorem handler_refuses_before_api
    (create : request → result pyval) (submit : bool)
    (user_q course_text quiz_text : string) :
  (local_quiz_guard (PyStr user_q) (PyStr quiz_text) = Ok true →
     (∀ req, ApiCall req ∉ (handler create submit user_q course_text quiz_text []).2) ∧
     (submit = true → strip user_q ≠ "" →
        handler create submit user_q course_text quiz_text []
          = (Ok tt, [StError REFUSAL]))) ∧
  (∀ req, ApiCall req ∈ (handler create submit user_q course_text quiz_text []).2 →
     local_quiz_guard (PyStr user_q) (PyStr quiz_text) = Ok false ∧
     req = build_request user_q course_text quiz_text) ∧
  (strip user_q = "" →
     handler create submit user_q course_text quiz_text [] = (Ok tt, [])).
Proof.
  destruct (handler_cases create submit user_q course_text quiz_text)
    as [[Hgate Hrun] | [(Hs & Hq & Hg & Hrun) | [(Hs & Hq & Hg & Hrun) | (e & Hs & Hq & Hg & Hrun)]]];
    rewrite Hrun; simpl.
  - split; [intros _; split|split].
    + intros req Hin. inversion Hin.
    + intros -> Hq. apply str_truthy_true in Hq. simpl in Hgate. congruence.
    + intros req Hin. inversion Hin.
    + reflexivity.
  - split; [intros _; split|split].
    + intros req Hin. apply list_elem_of_singleton in Hin. discriminate.
    + reflexivity.
    + intros req Hin. apply list_elem_of_singleton in Hin. discriminate.
    + intros Hblank. contradiction.
  - split; [intros Htrue; congruence|split].
    + intros req Hin. split; [exact Hg|].
      apply elem_of_cons in Hin as [Heq | Hin]; [congruence|].
      apply list_elem_of_singleton in Hin.
      destruct (create (build_request user_q course_text quiz_text)) as [[|?]|?];
        discriminate.
    + intros Hblank. contradiction.
  - split; [intros Htrue; congruence|split].
    + intros req Hin. inversion Hin.
    + intros Hblank. contradiction.
Qed.

Lemma handler_refuses_before_api_witness :
  handler (fixed_answer "The eigenvalues are 2 and 3.") true
          "Compute the eigenvalues of [[2,0],[0,3]]"
          "Eigenvalues are roots of the characteristic polynomial"
          "Compute the eigenvalues of [[2,0],[0,3]]" []
    = (Ok tt, [StError REFUSAL]).
Proof.
  apply (handler_refuses_before_api
           (fixed_answer "The eigenvalues are 2 and 3.") true
           "Compute the eigenvalues of [[2,0],[0,3]]"
           "Eigenvalues are roots of the characteristic polynomial"
           "Compute the eigenvalues of [[2,0],[0,3]]");
    [reflexivity | reflexivity | vm_compute; discriminate].
Defined.

(** C4 as stated fails on a blank question: the guard returns true on a
    single space against any quiz text with a space in it, and the handler
    shows nothing. *)
Lemma blank_question_shows_no_refusal :
  ¬ (∀ (create : request → result pyval) (user_q course_text quiz_text : string),
       local_quiz_guard (PyStr user_q) (PyStr quiz_text) = Ok true →
       displayed (handler create true user_q course_text quiz_text []).2 = [REFUSAL]).
Proof.
  intros H.
  specialize (H (fixed_answer "ok") " " "" "a b" eq_refl).
  vm_compute in H. discriminate H.
Qed.

(** C8 (amended). The handler copies no quiz text to the page.  What it
    shows is nothing, the fixed refusal, or the rendering of the reply of
    the generation API; two quiz texts on which the guard gives the same
    verdict and the API the same reply show the same page; and the quiz
    text changes no segment of the request other than the third. *)
Theorem quiz_text_shown_only_through_reply
    (create : request → result pyval) (submit : bool)
    (user_q course_text quiz1 quiz2 : string) :
  local_quiz_guard (PyStr user_q) (PyStr quiz1)
    = local_quiz_guard (PyStr user_q) (PyStr quiz2) →
  create (build_request user_q course_text quiz1)
    = create (build_request user_q course_text quiz2) →
  displayed (handler create submit user_q course_text quiz1 []).2
    = displayed (handler create submit user_q course_text quiz2 []).2 ∧
  (displayed (handler create submit user_q course_text quiz1 []).2 = []
   ∨ displayed (handler create submit user_q course_text quiz1 []).2 = [REFUSAL]
   ∨ displayed (handler create submit user_q course_text quiz1 []).2
       = displayed [reply_event (create (build_request user_q course_text quiz1))]) ∧
  (∀ i : nat, i ≠ 2%nat →
     req_messages (build_request user_q course_text quiz1) !! i
       = req_messages (build_request user_q course_text quiz2) !! i).
Proof.
  intros Hverdict Hreply.
  split; [|split].
  - destruct (handler_cases create submit user_q course_text quiz1)
      as [[Hgate Hrun] | [(Hs & Hq & Hg & Hrun) | [(Hs & Hq & Hg & Hrun) | (e & Hs & Hq & Hg & Hrun)]]];
      rewrite Hrun; try subst submit.
    + rewrite (handler_dropped create submit _ _ quiz2 [] Hgate). reflexivity.
    + rewrite Hverdict in Hg. rewrite (handler_blocked create _ _ quiz2 [] Hq Hg). reflexivity.
    + rewrite Hverdict in Hg. rewrite (handler_allowed create _ _ quiz2 [] Hq Hg).
      rewrite Hreply. reflexivity.
    + rewrite Hverdict in Hg. rewrite (handler_guard_raises create _ _ quiz2 [] e Hq Hg).
      reflexivity.
  - destruct (handler_cases create submit user_q course_text quiz1)
      as [[Hgate Hrun] | [(Hs & Hq & Hg & Hrun) | [(Hs & Hq & Hg & Hrun) | (e & Hs & Hq & Hg & Hrun)]]];
      rewrite Hrun.
    + left. reflexivity.
    + right; left. reflexivity.
    + right; right. reflexivity.
    + left. reflexivity.
  - intros [|[|[|[|i]]]] Hi; try reflexivity. contradiction.
Qed.

Lemma quiz_text_shown_only_through_reply_witness :
  displayed (handler (fixed_answer " A basis is a linearly independent spanning set. ")
               true "What is a basis?" "" "Q1. Compute det(A)." []).2
  = displayed (handler (fixed_answer " A basis is a linearly independent spanning set. ")
               true "What is a basis?" "" "Q7. Diagonalize B." []).2.
Proof.
  apply (quiz_text_shown_only_through_reply
           (fixed_answer " A basis is a linearly independent spanning set. ")
           true "What is a basis?" "" "Q1. Compute det(A)." "Q7. Diagonalize B.");
    reflexivity.
Defined.

(** C8 as stated fails when the generation service repeats what it was
    sent: the allowed question below is answered with the quiz segment, and
    the page then holds the whole quiz text. *)
Lemma quiz_text_echoed_by_model :
  ¬ (∀ (create : request → result pyval) (submit : bool)
       (user_q course_text quiz_text text : string),
       quiz_text ≠ "" →
       text ∈ displayed (handler create submit user_q course_text quiz_text []).2 →
       str_in quiz_text text = false).
Proof.
  intros H.
  specialize (H echo_third_segment true
                "What does it mean for a matrix to be diagonalizable?"
                "Eigenvalues are roots of the characteristic polynomial"
                "Compute the eigenvalues of [[2,0],[0,3]]"
                (strip (QUIZ_HEADER +:+ "Compute the eigenvalues of [[2,0],[0,3]]"))
                ltac:(discriminate)).
  assert (Hrun :
    displayed (handler echo_third_segment true
                 "What does it mean for a matrix to be diagonalizable?"
                 "Eigenvalues are roots of the characteristic polynomial"
                 "Compute the eigenvalues of [[2,0],[0,3]]" []).2
    = [strip (QUIZ_HEADER +:+ "Compute the eigenvalues of [[2,0],[0,3]]")])
    by (vm_compute; reflexivity).
  rewrite Hrun in H. specialize (H ltac:(apply list_elem_of_singleton; reflexivity)).
  vm_compute in H. discriminate H.
Qed.

(** ** The corpus loader *)

Lemma pages_loop_ok (text : list string) (vs : list pyval) :
  pages_loop text (map ok_page vs) = Ok (text ++ map or_empty vs).
Proof.
  revert text. induction vs as [|v vs IH]; intros text; simpl.
  - rewrite app_nil_r. reflexivity.
  - rewrite IH, <- app_assoc. reflexivity.
Qed.

Lemma pages_loop_raise (text : list string) (vs : list pyval) (e : exn)
    (rest : list pdf_page) :
  pages_loop text (map ok_page vs ++ Page (Raise e) :: rest) = Raise e.
Proof.
  revert text. induction vs as [|v vs IH]; intros text; simpl; [reflexivity|].
  apply IH.
Qed.

Lemma extract_missing (fs : filesystem) (path : string) :
  fs !! path = None → extract_text_from_pdf fs path = Ok "".
Proof. intros H. unfold extract_text_from_pdf, path_exists. rewrite H. reflexivity. Qed.

Lemma extract_file (fs : filesystem) (path : string) (reader : result (list pdf_page)) :
  fs !! path = Some (File reader) →
  extract_text_from_pdf fs path
    = (pages <-- reader ;; text <-- pages_loop [] pages ;; Ok (join nl text)).
Proof.
  intros H. unfold extract_text_from_pdf, path_exists, PdfReader. rewrite H.
  reflexivity.
Qed.

Lemma folder_loop_raise (fs : filesystem) (folder : string) (e : exn)
    (pre : list string) (name : string) (post buf : list string) :
  Forall (λ n, pdf_name n = true →
               ∃ t, extract_text_from_pdf fs (path_join folder n) = Ok t) pre →
  pdf_name name = true →
  extract_text_from_pdf fs (path_join folder name) = Raise e →
  folder_loop fs folder buf (pre ++ name :: post) = Raise e.
Proof.
  unfold pdf_name. intros Hpre Hname Hraise. revert buf.
  induction Hpre as [|n pre Hn _ IH]; intros buf; simpl.
  - rewrite Hname, Hraise. reflexivity.
  - destruct (endswith ".pdf" (lower n)) eqn:Hpdf; [|apply IH].
    destruct (Hn eq_refl) as [t ->]. simpl. apply IH.
Qed.

Lemma folder_not_dir (fs : filesystem) (folder : string) :
  isdir fs folder = false → extract_texts_from_folder fs folder = Ok "".
Proof. intros H. unfold extract_texts_from_folder. rewrite H. reflexivity. Qed.

Lemma isdir_missing (fs : filesystem) (path : string) :
  fs !! path = None → isdir fs path = false.
Proof. intros H. unfold isdir. rewrite H. reflexivity. Qed.

(** C6 (amended). Only absence is tolerated by the loader: a path that does
    not exist gives empty text, and a page whose extraction returns nothing
    gives an empty page.  An error raised by the PDF reader or by the text
    extraction of a page is not caught: [extract_text_from_pdf] raises it,
    [extract_texts_from_folder] raises it for the first PDF of the sorted
    listing that fails, and [load_corpus] raises it in turn. *)
Theorem loader_errors_propagate (fs : filesystem) (path : string) (e : exn) :
  (fs !! path = None → extract_text_from_pdf fs path = Ok "") ∧
  (∀ vs, fs !! path = Some (File (Ok (map ok_page vs))) →
         extract_text_from_pdf fs path = Ok (join nl (map or_empty vs))) ∧
  or_empty PyNone = "" ∧
  (fs !! path = Some (File (Raise e)) → extract_text_from_pdf fs path = Raise e) ∧
  (∀ vs rest,
     fs !! path = Some (File (Ok (map ok_page vs ++ Page (Raise e) :: rest))) →
     extract_text_from_pdf fs path = Raise e) ∧
  (∀ folder pre name post,
     isdir fs folder = true →
     sorted (listdir fs folder) = pre ++ name :: post →
     Forall (λ n, pdf_name n = true →
                  ∃ t, extract_text_from_pdf fs (path_join folder n) = Ok t) pre →
     pdf_name name = true →
     extract_text_from_pdf fs (path_join folder name) = Raise e →
     extract_texts_from_folder fs folder = Raise e) ∧
  (extract_texts_from_folder fs COURSE_PDF_DIR = Raise e → load_corpus fs = Raise e) ∧
  (∀ course_text,
     extract_texts_from_folder fs COURSE_PDF_DIR = Ok course_text →
     extract_text_from_pdf fs QUIZ_PDF_PATH = Raise e →
     load_corpus fs = Raise e).
Proof.
  repeat split.
  - apply extract_missing.
  - intros vs H. rewrite (extract_file _ _ _ H). simpl.
    rewrite pages_loop_ok. reflexivity.
  - intros H. rewrite (extract_file _ _ _ H). reflexivity.
  - intros vs rest H. rewrite (extract_file _ _ _ H). simpl.
    rewrite pages_loop_raise. reflexivity.
  - intros folder pre name post Hdir Hsorted Hpre Hname Hraise.
    unfold extract_texts_from_folder. rewrite Hdir, Hsorted. simpl.
    rewrite (folder_loop_raise fs folder e pre name post [] Hpre Hname Hraise).
    reflexivity.
  - intros H. unfold load_corpus. rewrite H. reflexivity.
  - intros course_text Hc Hz. unfold load_corpus. rewrite Hc, Hz. reflexivity.
Qed.

Lemma loader_errors_propagate_witness :
  load_corpus fs_corrupt = Raise (PdfReadError "EOF marker not found").
Proof.
  apply (loader_errors_propagate fs_corrupt "pdfs/week2.pdf"
           (PdfReadError "EOF marker not found")).
  apply (loader_errors_propagate fs_corrupt "pdfs/week2.pdf"
           (PdfReadError "EOF marker not found"))
    with (pre := ["week1.pdf"]) (name := "week2.pdf") (post := []).
  - reflexivity.
  - vm_compute. reflexivity.
  - constructor; [|constructor]. intros _. eexists. vm_compute. reflexivity.
  - reflexivity.
  - apply (loader_errors_propagate fs_corrupt "pdfs/week2.pdf"
             (PdfReadError "EOF marker not found")).
    reflexivity.
Defined.

(** C6 as stated fails: an unreadable PDF in the course folder is not
    treated as empty text, corpus loading raises the reader's error. *)
Lemma unreadable_pdf_not_swallowed :
  extract_text_from_pdf fs_corrupt "pdfs/week2.pdf"
    = Raise (PdfReadError "EOF marker not found") ∧
  load_corpus fs_corrupt = Raise (PdfReadError "EOF marker not found") ∧
  ¬ (∀ fs : filesystem, ∃ texts, load_corpus fs = Ok texts).
Proof.
  split; [vm_compute; reflexivity|]. split; [vm_compute; reflexivity|].
  intros H. destruct (H fs_corrupt) as [texts Htexts].
  vm_compute in Htexts. discriminate Htexts.
Qed.

(** C7. A course directory that does not exist gives the empty course
    string and a quiz path that does not exist gives the empty quiz string,
    each returned, not raised; with both absent [load_corpus] returns the
    pair of empty strings, and with one absent it returns the empty string
    on that side together with what the other side yields. *)
Theorem load_corpus_missing_paths (fs : filesystem) :
  (fs !! COURSE_PDF_DIR = None →
     extract_texts_from_folder fs COURSE_PDF_DIR = Ok "" ∧
     load_corpus fs
       = (quiz_text <-- extract_text_from_pdf fs QUIZ_PDF_PATH ;; Ok ("", quiz_text))) ∧
  (fs !! QUIZ_PDF_PATH = None →
     extract_text_from_pdf fs QUIZ_PDF_PATH = Ok "" ∧
     load_corpus fs
       = (course_text <-- extract_texts_from_folder fs COURSE_PDF_DIR ;;
          Ok (course_text, ""))) ∧
  (fs !! COURSE_PDF_DIR = None → fs !! QUIZ_PDF_PATH = None →
     load_corpus fs = Ok ("", "")).
Proof.
  assert (Hc : fs !! COURSE_PDF_DIR = None →
               extract_texts_from_folder fs COURSE_PDF_DIR = Ok "")
    by (intros H; apply folder_not_dir, isdir_missing, H).
  assert (Hz : fs !! QUIZ_PDF_PATH = None →
               extract_text_from_pdf fs QUIZ_PDF_PATH = Ok "")
    by apply extract_missing.
  split; [|split].
  - intros H. split; [exact (Hc H)|]. unfold load_corpus. rewrite (Hc H). reflexivity.
  - intros H. split; [exact (Hz H)|]. unfold load_corpus. rewrite (Hz H).
    destruct (extract_texts_from_folder fs COURSE_PDF_DIR); reflexivity.
  - intros H1 H2. unfold load_corpus. rewrite (Hc H1), (Hz H2). reflexivity.
Qed.

Lemma load_corpus_missing_paths_witness :
  load_corpus ∅ = Ok ("", "") ∧
  load_corpus fs_quiz_only = Ok ("", "Q1. Find det(A).").
Proof.
  split.
  - apply (load_corpus_missing_paths ∅); reflexivity.
  - rewrite (proj2 (proj1 (load_corpus_missing_paths fs_quiz_only) eq_refl)).
    reflexivity.
Defined.

(** * Further properties of the code *)

(** ** Text helpers *)

Lemma append_assoc (a b c : string) : (a +:+ b) +:+ c = a +:+ (b +:+ c).
Proof.
  induction a as [|x a IH]; [reflexivity|].
  rewrite !append_cons, IH. reflexivity.
Qed.

Lemma append_empty_r (a : string) : a +:+ "" = a.
Proof.
  induction a as [|x a IH]; [reflexivity|]. rewrite append_cons, IH. reflexivity.
Qed.

Lemma lower_char_idem (c : ascii) : lower_char (lower_char c) = lower_char c.
Proof. destruct c as [[] [] [] [] [] [] [] []]; reflexivity. Qed.

Lemma lower_idem (s : string) : lower (lower s) = lower s.
Proof.
  induction s as [|c s IH]; simpl; [reflexivity|].
  rewrite lower_char_idem, IH. reflexivity.
Qed.


Lemma str_truthy_lower (s : string) : str_truthy (lower s) = str_truthy s.
Proof. destruct s; reflexivity. Qed.



(** ** The tokenizer *)

Lemma scan_split (cur a b : string) (c : ascii) :
  is_token_char c = false →
  scan cur (a +:+ String c b) = scan cur a ++ scan "" b.
Proof.
  intros Hc. revert cur. induction a as [|x a IH]; intros cur.
  - rewrite append_empty_l. simpl. rewrite Hc. reflexivity.
  - rewrite append_cons. simpl. destruct (is_token_char x).
    + apply IH.
    + rewrite IH, app_assoc. reflexivity.
Qed.

Lemma scan_run (cur s : string) :
  all_chars is_token_char s = true → scan cur s = flush (cur +:+ s).
Proof.
  revert cur. induction s as [|x s IH]; intros cur Hs; simpl in *.
  - rewrite append_empty_r. reflexivity.
  - apply andb_true_iff in Hs as [Hx Hs]. rewrite Hx, IH by exact Hs.
    rewrite append_assoc. reflexivity.
Qed.

Lemma scan_no_token (s : string) :
  all_chars (λ c, negb (is_token_char c)) s = true → scan "" s = [].
Proof.
  induction s as [|x s IH]; intros Hs; simpl in *; [reflexivity|].
  apply andb_true_iff in Hs as [Hx Hs]. apply negb_true_iff in Hx.
  rewrite Hx. simpl. apply IH, Hs.
Qed.

(** X1. Every match of the tokenizer is a non-empty run of characters of
    the class [a-z0-9^_]. *)
Theorem tokens_are_class_runs (s : string) :
  Forall (λ tok, tok ≠ "" ∧ all_chars is_token_char tok = true) (findall_tokens s).
Proof. apply scan_tokens. reflexivity. Qed.

(** X2. A character outside the class separates matches: the matches of
    [a], one such character, [b] are those of [a] followed by those of
    [b]. *)
Theorem tokens_split_at_separator (a b : string) (c : ascii) :
  is_token_char c = false →
  findall_tokens (a +:+ String c b) = findall_tokens a ++ findall_tokens b.
Proof. intros Hc. apply scan_split, Hc. Qed.

Lemma tokens_split_at_separator_witness :
  findall_tokens ("x^2" +:+ String " " "a_1 b") = findall_tokens "x^2" ++ findall_tokens "a_1 b".
Proof. apply tokens_split_at_separator. reflexivity. Defined.

(** X3. A non-empty text made of class characters only is a single match,
    itself; a text with no class character has no match. *)
Theorem tokens_of_runs (s : string) :
  (s ≠ "" → all_chars is_token_char s = true → findall_tokens s = [s]) ∧
  (all_chars (λ c, negb (is_token_char c)) s = true → findall_tokens s = []).
Proof.
  split.
  - intros Hs Hall. unfold findall_tokens. rewrite scan_run by exact Hall.
    rewrite append_empty_l. destruct s; [contradiction | reflexivity].
  - apply scan_no_token.
Qed.

Lemma tokens_of_runs_witness :
  findall_tokens "a_1^2" = ["a_1^2"] ∧ findall_tokens "?! (A) +" = [].
Proof.
  split.
  - apply (tokens_of_runs "a_1^2"); [discriminate | reflexivity].
  - apply (tokens_of_runs "?! (A) +"). reflexivity.
Defined.

Lemma scan_occur (cur s : string) :
  Forall (λ tok, ∃ a b, cur +:+ s = a +:+ tok +:+ b) (scan cur s).
Proof.
  revert cur. induction s as [|x s IH]; intros cur; simpl.
  - destruct cur; simpl; constructor; [|constructor].
    exists "", "". rewrite append_empty_l. reflexivity.
  - destruct (is_token_char x).
    + specialize (IH (cur +:+ String x "")).
      rewrite append_assoc in IH. exact IH.
    + apply Forall_app. split.
      * destruct cur as [|y cur]; simpl; constructor; [|constructor].
        exists "", (String x s). rewrite append_empty_l. reflexivity.
      * specialize (IH ""). rewrite append_empty_l in IH.
        eapply Forall_impl; [exact IH|]. intros tok (a & b & Hab).
        exists (cur +:+ String x a), b. rewrite append_assoc, append_cons.
        rewrite <- Hab. reflexivity.
Qed.

(** X4. Every match occurs in the text it was found in. *)
Theorem tokens_occur_in_text (s : string) :
  Forall (λ tok, str_in tok s = true) (findall_tokens s).
Proof.
  eapply Forall_impl; [apply (scan_occur "" s)|].
  intros tok Hocc. apply str_in_spec. exact Hocc.
Qed.

(** ** The guard *)

Ltac pow51 := change (2 ^ 51) with 2251799813685248 in *.

Lemma token_set_empty : token_set "" = ∅.
Proof. reflexivity. Qed.


(** The guard raises nothing on a question with fewer than 2^51 distinct
    tokens. *)
Lemma guard_returns (q t : string) :
  Z.of_nat (size (token_set (lower q))) < 2 ^ 51 →
  ∃ b, local_quiz_guard (PyStr q) (PyStr t) = Ok b.
Proof.
  intros Hn. rewrite guard_unfold.
  destruct (negb (str_truthy (lower q)) || negb (str_truthy t)); [eauto|].
  destruct (str_in (lower q) (lower t)); [eauto|].
  rewrite int_0_4_times_floor by (pow51; lia). simpl. eauto.
Qed.

(** X5. The guard is case-insensitive on both sides: lowering the question
    and the quiz text beforehand changes nothing. *)
Theorem guard_case_insensitive (q t : string) :
  local_quiz_guard (PyStr (lower q)) (PyStr (lower t))
    = local_quiz_guard (PyStr q) (PyStr t).
Proof.
  rewrite !guard_unfold, !lower_idem, (str_truthy_lower t). reflexivity.
Qed.

(** X6. With no quiz text at all ([None]) the guard returns false for a
    question that is a [str] or [None], and raises nothing. *)
Theorem guard_none_quiz_text (user_q : pyval) :
  local_quiz_guard user_q PyNone = Ok false.
Proof.
  destruct user_q as [|q]; [reflexivity|].
  unfold local_quiz_guard. rewrite py_or_str. simpl.
  rewrite orb_true_r. reflexivity.
Qed.

(** X7. A question with at least 8 distinct tokens (and fewer than 2^51),
    all of which occur among the tokens of a non-empty quiz text, is
    blocked, whatever the order, spacing and punctuation on either side. *)
Theorem guard_all_tokens_in_quiz (q t : string) :
  t ≠ "" →
  8 ≤ Z.of_nat (size (token_set (lower q))) < 2 ^ 51 →
  token_set (lower q) ⊆ token_set (lower t) →
  local_quiz_guard (PyStr q) (PyStr t) = Ok true.
Proof.
  intros Ht [Hn8 Hn] Hsub. rewrite guard_unfold.
  assert (Hq : str_truthy (lower q) = true).
  { destruct (lower q); [|reflexivity].
    rewrite token_set_empty, size_empty in Hn8. simpl in Hn8. lia. }
  apply str_truthy_true in Ht. rewrite Hq, Ht. simpl.
  destruct (str_in (lower q) (lower t)); [reflexivity|].
  rewrite int_0_4_times_floor by (pow51; lia). unfold rbind. f_equal.
  rewrite (subseteq_intersection_1_L _ _ Hsub).
  apply Z.leb_le.
  assert (2 * Z.of_nat (size (token_set (lower q))) / 5
          ≤ Z.of_nat (size (token_set (lower q))))
    by (apply Z.div_le_upper_bound; lia).
  lia.
Qed.

Lemma guard_all_tokens_in_quiz_witness :
  local_quiz_guard (PyStr "Find the rank, nullity and basis of matrix A?")
                   (PyStr "Q3: of matrix A, find the basis; and the rank; nullity.")
    = Ok true.
Proof.
  apply guard_all_tokens_in_quiz.
  - discriminate.
  - vm_compute. split; [discriminate | reflexivity].
  - apply (bool_decide_unpack _). vm_compute. exact I.
Defined.




(** ** The corpus loader *)

Lemma sorted_permutation (l1 l2 : list string) :
  l1 ≡ₚ l2 → sorted l1 = sorted l2.
Proof.
  intros Hperm. unfold sorted.
  apply (Sorted_unique String.le).
  - apply Sorted_merge_sort, _.
  - apply Sorted_merge_sort, _.
  - rewrite !merge_sort_Permutation. exact Hperm.
Qed.

Lemma extract_relisted (fs : filesystem) (folder path : string)
    (l1 l2 : list string) :
  fs !! folder = Some (Dir l1) →
  extract_text_from_pdf (<[folder := Dir l2]> fs) path
    = extract_text_from_pdf fs path.
Proof.
  intros Hdir. unfold extract_text_from_pdf, path_exists, PdfReader.
  destruct (decide (path = folder)) as [->|Hne].
  - rewrite lookup_insert_eq, Hdir. reflexivity.
  - rewrite lookup_insert_ne by congruence. reflexivity.
Qed.

Lemma folder_loop_ext (fs1 fs2 : filesystem) (folder : string)
    (buf names : list string) :
  (∀ path, extract_text_from_pdf fs1 path = extract_text_from_pdf fs2 path) →
  folder_loop fs1 folder buf names = folder_loop fs2 folder buf names.
Proof.
  intros Hext. revert buf. induction names as [|n names IH]; intros buf; simpl;
    [reflexivity|].
  destruct (endswith ".pdf" (lower n)); [|apply IH].
  rewrite Hext. destruct (extract_text_from_pdf fs2 (path_join folder n)); simpl;
    [apply IH | reflexivity].
Qed.

(** X9. The course text does not depend on the order in which the
    directory lists its entries: any permutation of the listing gives the
    same result (text or raised error). *)
Theorem folder_listing_order_irrelevant (fs : filesystem) (folder : string)
    (l1 l2 : list string) :
  fs !! folder = Some (Dir l1) →
  l1 ≡ₚ l2 →
  extract_texts_from_folder (<[folder := Dir l2]> fs) folder
    = extract_texts_from_folder fs folder.
Proof.
  intros Hdir Hperm. unfold extract_texts_from_folder, isdir, listdir.
  rewrite lookup_insert_eq, Hdir. simpl.
  rewrite (sorted_permutation l2 l1) by (symmetry; exact Hperm).
  rewrite (folder_loop_ext (<[folder := Dir l2]> fs) fs); [reflexivity|].
  intros path. apply (extract_relisted fs folder path l1 l2 Hdir).
Qed.

Lemma folder_listing_order_irrelevant_witness :
  extract_texts_from_folder
    (<["pdfs" := Dir ["README.txt"; "week2.pdf"; "week1.PDF"]]> fs_two_weeks) "pdfs"
  = extract_texts_from_folder fs_two_weeks "pdfs".
Proof.
  apply (folder_listing_order_irrelevant fs_two_weeks "pdfs"
           ["week2.pdf"; "README.txt"; "week1.PDF"]).
  - reflexivity.
  - apply perm_swap.
Defined.

Lemma folder_loop_ok (fs : filesystem) (folder : string) (text : string → string)
    (buf names : list string) :
  (∀ n, n ∈ names → pdf_name n = true →
        extract_text_from_pdf fs (path_join folder n) = Ok (text n)) →
  folder_loop fs folder buf names
    = Ok (buf ++ flat_map (λ n, file_section n (text n)) (List.filter pdf_name names)).
Proof.
  revert buf. induction names as [|n names IH]; intros buf Hok; simpl.
  - rewrite app_nil_r. reflexivity.
  - assert (Hrest : ∀ m, m ∈ names → pdf_name m = true →
                         extract_text_from_pdf fs (path_join folder m) = Ok (text m))
      by (intros m Hm; apply Hok; right; exact Hm).
    fold (pdf_name n). destruct (pdf_name n) eqn:Hn.
    + rewrite (Hok n (list_elem_of_here n names) Hn). simpl.
      rewrite (IH _ Hrest), <- app_assoc. reflexivity.
    + apply IH, Hrest.
Qed.

(** X10. When every PDF of the folder is readable, the course text is the
    newline join, over the entries whose lowered name ends in ".pdf" taken
    in sorted order, of the file's header followed by the file's text;
    other entries are never opened. *)
Theorem folder_all_readable (fs : filesystem) (folder : string)
    (names : list string) (text : string → string) :
  fs !! folder = Some (Dir names) →
  (∀ n, n ∈ names → pdf_name n = true →
        extract_text_from_pdf fs (path_join folder n) = Ok (text n)) →
  extract_texts_from_folder fs folder
    = Ok (join nl (flat_map (λ n, file_section n (text n))
                            (List.filter pdf_name (sorted names)))).
Proof.
  intros Hdir Hok. unfold extract_texts_from_folder, isdir, listdir.
  rewrite Hdir. simpl.
  rewrite (folder_loop_ok fs folder text [] (sorted names)); [reflexivity|].
  intros n Hn. apply Hok. unfold sorted in Hn.
  rewrite merge_sort_Permutation in Hn. exact Hn.
Qed.

Lemma folder_all_readable_witness :
  extract_texts_from_folder fs_two_weeks "pdfs"
  = Ok (join nl [file_header "week1.PDF"; join nl ["Vector spaces"; ""];
                 file_header "week2.pdf"; "Linear maps"]).
Proof.
  rewrite (folder_all_readable fs_two_weeks "pdfs"
             ["week2.pdf"; "README.txt"; "week1.PDF"] two_weeks_text).
  - reflexivity.
  - reflexivity.
  - intros n Hn Hpdf.
    apply elem_of_cons in Hn as [->|Hn]; [reflexivity|].
    apply elem_of_cons in Hn as [->|Hn]; [discriminate Hpdf|].
    apply list_elem_of_singleton in Hn as ->. reflexivity.
Defined.

(** ** The prompt assembler *)

(** X12. Texts within the limits are sent whole: a non-empty course text
    of at most 200,000 characters and a non-empty quiz text of at most
    100,000 characters appear untruncated after their headers. *)
Theorem build_messages_within_limits (user_q course_text quiz_text : string) :
  course_text ≠ "" → Z.of_nat (String.length course_text) ≤ 200000 →
  quiz_text ≠ "" → Z.of_nat (String.length quiz_text) ≤ 100000 →
  build_messages user_q course_text quiz_text
    = [ Message System SYSTEM_PROMPT;
        Message System (COURSE_HEADER +:+ course_text);
        Message System (QUIZ_HEADER +:+ quiz_text);
        Message User (strip user_q) ].
Proof.
  intros Hc Hclen Hz Hzlen. unfold build_messages.
  apply str_truthy_true in Hc, Hz. rewrite Hc, Hz.
  rewrite !str_take_all by assumption. reflexivity.
Qed.

Lemma build_messages_within_limits_witness :
  build_messages "What is a basis?" "Bases span." "Q1. Find a basis."
    = [ Message System SYSTEM_PROMPT;
        Message System (COURSE_HEADER +:+ "Bases span.");
        Message System (QUIZ_HEADER +:+ "Q1. Find a basis.");
        Message User "What is a basis?" ].
Proof.
  apply (build_messages_within_limits "What is a basis?" "Bases span." "Q1. Find a basis.");
    (discriminate || (vm_compute; discriminate)).
Defined.

(** ** The submit handler *)

Lemma displayed_reply (reply : result pyval) :
  ∃ text, displayed [reply_event reply] = [text].
Proof. destruct reply as [[|answer]|e]; simpl; eauto. Qed.

Lemma handler_frame (create : request → result pyval) (submit : bool)
    (q c z : string) (tr : list event) :
  handler create submit q c z tr
    = ((handler create submit q c z []).1, tr ++ (handler create submit q c z []).2).
Proof.
  destruct (handler_cases create submit q c z)
    as [[Hgate Hrun] | [(Hs & Hq & Hg & Hrun) | [(Hs & Hq & Hg & Hrun) | (e & Hs & Hq & Hg & Hrun)]]];
    rewrite Hrun; simpl; try subst submit.
  - rewrite app_nil_r. apply handler_dropped, Hgate.
  - apply handler_blocked; assumption.
  - apply handler_allowed; assumption.
  - rewrite app_nil_r. apply handler_guard_raises; assumption.
Qed.

(** X13. A failure of the generation call is caught, not propagated: when
    the API raises, or answers with no content, an allowed submission ends
    normally with the request sent and one error line shown, the text
    "Error: " followed by the message of the exception. *)
Theorem handler_api_failure_shown (create : request → result pyval)
    (user_q course_text quiz_text : string) (e : exn) (tr : list event) :
  strip user_q ≠ "" →
  local_quiz_guard (PyStr user_q) (PyStr quiz_text) = Ok false →
  create (build_request user_q course_text quiz_text) = Raise e
  ∨ (create (build_request user_q course_text quiz_text) = Ok PyNone
     ∧ e = AttributeError "strip") →
  handler create true user_q course_text quiz_text tr
    = (Ok tt, tr ++ [ApiCall (build_request user_q course_text quiz_text);
                     StError ("Error: " +:+ exn_message e)]).
Proof.
  intros Hq Hg Hfail. rewrite (handler_allowed create _ _ _ tr Hq Hg).
  destruct Hfail as [-> | [-> ->]]; reflexivity.
Qed.

Lemma handler_api_failure_shown_witness :
  handler (λ _, Raise (ApiError "Rate limit reached")) true
          "What is a basis?" "Bases span." "Q1. Compute det(A)." []
    = (Ok tt, [ApiCall (build_request "What is a basis?" "Bases span." "Q1. Compute det(A).");
               StError "Error: Rate limit reached"]).
Proof.
  apply (handler_api_failure_shown (λ _, Raise (ApiError "Rate limit reached"))
           "What is a basis?" "Bases span." "Q1. Compute det(A)."
           (ApiError "Rate limit reached") []).
  - vm_compute. discriminate.
  - reflexivity.
  - left. reflexivity.
Defined.

(** X14. No exception escapes the handler: for a question with fewer than
    2^51 distinct tokens it ends normally whatever the button state, the
    texts and the behaviour of the generation API. *)
Theorem handler_never_raises (create : request → result pyval) (submit : bool)
    (user_q course_text quiz_text : string) (tr : list event) :
  Z.of_nat (size (token_set (lower user_q))) < 2 ^ 51 →
  (handler create submit user_q course_text quiz_text tr).1 = Ok tt.
Proof.
  intros Hn. rewrite handler_frame. simpl.
  destruct (guard_returns user_q quiz_text Hn) as [b Hb].
  destruct (handler_cases create submit user_q course_text quiz_text)
    as [[Hgate Hrun] | [(Hs & Hq & Hg & Hrun) | [(Hs & Hq & Hg & Hrun) | (e & Hs & Hq & Hg & Hrun)]]];
    rewrite Hrun; try reflexivity.
  congruence.
Qed.

Lemma handler_never_raises_witness :
  (handler (λ _, Raise (ApiError "timeout")) true
           "What is a basis?" "" "Q1. Compute det(A)." []).1 = Ok tt.
Proof.
  apply handler_never_raises. reflexivity.
Defined.

(** X15. One run of the handler sends at most one request, the assembled
    one, and shows at most one text; when a request was sent exactly one
    text is shown. *)
Theorem handler_one_call_one_text (create : request → result pyval)
    (submit : bool) (user_q course_text quiz_text : string) :
  let tr := (handler create submit user_q course_text quiz_text []).2 in
  (length (displayed tr) ≤ 1)%nat ∧
  (api_calls tr = []
   ∨ api_calls tr = [build_request user_q course_text quiz_text]
     ∧ length (displayed tr) = 1%nat).
Proof.
  destruct (handler_cases create submit user_q course_text quiz_text)
    as [[Hgate Hrun] | [(Hs & Hq & Hg & Hrun) | [(Hs & Hq & Hg & Hrun) | (e & Hs & Hq & Hg & Hrun)]]];
    rewrite Hrun; cbn [snd]; try (simpl; split; [lia | left; reflexivity]).
  destruct (displayed_reply (create (build_request user_q course_text quiz_text)))
    as [text Htext].
  assert (Hshown : displayed [ApiCall (build_request user_q course_text quiz_text);
                              reply_event (create (build_request user_q course_text quiz_text))]
                   = [text]) by exact Htext.
  assert (Hsent : api_calls [ApiCall (build_request user_q course_text quiz_text);
                             reply_event (create (build_request user_q course_text quiz_text))]
                  = [build_request user_q course_text quiz_text])
    by (destruct (create (build_request user_q course_text quiz_text)) as [[|?]|?];
        reflexivity).
  rewrite Hshown, Hsent. simpl. split; [lia | right; split; reflexivity].
Qed.

(** X11. A missing quiz file switches the guard off: the loaded quiz text
    is empty, the guard returns false for every question, and every
    non-blank submission is sent to the generation API with the quiz
    placeholder. *)
Theorem missing_quiz_disables_guard (create : request → result pyval)
    (fs : filesystem) (course_text quiz_text user_q : string) :
  fs !! QUIZ_PDF_PATH = None →
  load_corpus fs = Ok (course_text, quiz_text) →
  quiz_text = "" ∧
  (∀ question : pyval, local_quiz_guard question (PyStr quiz_text) = Ok false) ∧
  (strip user_q ≠ "" →
     handler create true user_q course_text quiz_text []
       = (Ok tt, [ApiCall (build_request user_q course_text "");
                  reply_event (create (build_request user_q course_text ""))]) ∧
     msg_content <$> req_messages (build_request user_q course_text "") !! 2%nat
       = Some (QUIZ_HEADER +:+ PLACEHOLDER)).
Proof.
  intros Hmiss Hload.
  assert (Hz : quiz_text = "").
  { unfold load_corpus in Hload. rewrite (extract_missing fs _ Hmiss) in Hload.
    destruct (extract_texts_from_folder fs COURSE_PDF_DIR); simpl in Hload;
      congruence. }
  subst quiz_text. split; [reflexivity|]. split.
  - intros [|q]; [reflexivity|]. apply guard_empty_fails_open. right. reflexivity.
  - intros Hq. split; [|reflexivity].
    apply (handler_allowed create user_q course_text "" [] Hq).
    apply guard_empty_fails_open. right. reflexivity.
Qed.

Lemma missing_quiz_disables_guard_witness :
  handler (fixed_answer "2 and 3") true "Compute the eigenvalues of [[2,0],[0,3]]"
          (join nl [file_header "week1.PDF"; join nl ["Vector spaces"; ""];
                    file_header "week2.pdf"; "Linear maps"]) "" []
  = (Ok tt, [ApiCall (build_request "Compute the eigenvalues of [[2,0],[0,3]]"
                        (join nl [file_header "week1.PDF"; join nl ["Vector spaces"; ""];
                                  file_header "week2.pdf"; "Linear maps"]) "");
             StMarkdown "2 and 3"]).
Proof.
  apply (missing_quiz_disables_guard (fixed_answer "2 and 3") fs_two_weeks).
  - reflexivity.
  - vm_compute. reflexivity.
  - vm_compute. discriminate.
Defined.

(** ** The page and the start-up *)

Lemma page_loaded (create : request → result pyval)
    (course_text quiz_text user_q : string) (submit : bool) :
  page create (Ok (course_text, quiz_text)) user_q submit []
    = handler create submit user_q course_text quiz_text
        ([StTitle APP_TITLE; StCaption CAPTION]
         ++ (if str_truthy (strip course_text) then []
             else [StWarning NO_COURSE_WARNING])).
Proof.
  unfold page, io_bind, io_lift, emit, io_ret. simpl.
  destruct (str_truthy (strip course_text)); reflexivity.
Qed.

Lemma handler_events (create : request → result pyval) (submit : bool)
    (q c z : string) (ev : event) :
  ev ∈ (handler create submit q c z []).2 →
  (∃ text, ev = StError text) ∨ (∃ text, ev = StMarkdown text)
  ∨ (ev = ApiCall (build_request q c z) ∧ submit = true ∧ strip q ≠ ""
     ∧ local_quiz_guard (PyStr q) (PyStr z) = Ok false).
Proof.
  destruct (handler_cases create submit q c z)
    as [[Hgate Hrun] | [(Hs & Hq & Hg & Hrun) | [(Hs & Hq & Hg & Hrun) | (e & Hs & Hq & Hg & Hrun)]]];
    rewrite Hrun; simpl; intros Hin.
  - inversion Hin.
  - apply list_elem_of_singleton in Hin. left. eauto.
  - apply elem_of_cons in Hin as [-> | Hin]; [right; right; auto|].
    apply list_elem_of_singleton in Hin as ->.
    destruct (create (build_request q c z)) as [[|?]|?]; simpl; eauto.
  - inversion Hin.
Qed.

(** X16. Once the corpus is loaded the page starts with the title and the
    caption, and it shows the no-course warning exactly when the course
    text is blank after trimming. *)
Theorem page_warning_iff_blank_course (create : request → result pyval)
    (course_text quiz_text user_q : string) (submit : bool) :
  let tr := (page create (Ok (course_text, quiz_text)) user_q submit []).2 in
  (∃ rest, tr = StTitle APP_TITLE :: StCaption CAPTION :: rest) ∧
  (StWarning NO_COURSE_WARNING ∈ tr ↔ strip course_text = "").
Proof.
  simpl. rewrite page_loaded, handler_frame. simpl. split; [eauto|].
  rewrite !elem_of_cons, elem_of_app. split.
  - intros [Hin | [Hin | [Hin | Hin]]]; try discriminate.
    + destruct (strip course_text); [reflexivity|]. inversion Hin.
    + apply handler_events in Hin
        as [[text Hev] | [[text Hev] | [Hev _]]]; discriminate.
  - intros ->. right; right; left. simpl. left.
Qed.

(** X17. The script sends a request to the generation API only if a key
    was found, the corpus loaded, the button was pressed, the question is
    non-blank and the guard returned false on the loaded quiz text; the
    request is then the one assembled from the loaded texts. *)
Theorem app_api_call_conditions (api : pyval → request → result pyval)
    (getenv : pyval) (secrets_exists : bool) (secret : option pyval)
    (fs : filesystem) (user_q : string) (submit : bool) (req : request) :
  ApiCall req ∈ (app api getenv secrets_exists secret fs user_q submit).2 →
  truthy (load_api_key getenv secrets_exists secret) = true ∧
  submit = true ∧ strip user_q ≠ "" ∧
  ∃ course_text quiz_text,
    load_corpus fs = Ok (course_text, quiz_text) ∧
    local_quiz_guard (PyStr user_q) (PyStr quiz_text) = Ok false ∧
    req = build_request user_q course_text quiz_text.
Proof.
  unfold app.
  destruct (truthy (load_api_key getenv secrets_exists secret)) eqn:Hkey; simpl.
  - destruct (load_corpus fs) as [[c z]|e] eqn:Hload.
    + rewrite page_loaded, handler_frame. simpl.
      rewrite !elem_of_cons, elem_of_app. intros [Hin | [Hin | [Hin | Hin]]];
        try discriminate.
      * destruct (str_truthy (strip c)); [inversion Hin|].
        apply list_elem_of_singleton in Hin. discriminate.
      * apply handler_events in Hin
          as [[text Hev] | [[text Hev] | (Hev & Hs & Hq & Hg)]]; try discriminate.
        injection Hev as ->. split; [reflexivity|]. split; [exact Hs|].
        split; [exact Hq|]. exists c, z. auto.
    + simpl. rewrite !elem_of_cons. intros [Hin | [Hin | Hin]]; try discriminate.
      inversion Hin.
  - intros Hin. apply list_elem_of_singleton in Hin. discriminate.
Qed.

Lemma app_api_call_conditions_witness :
  local_quiz_guard (PyStr "What does it mean for a matrix to be diagonalizable?")
                   (PyStr "Compute the eigenvalues of [[2,0],[0,3]]") = Ok false.
Proof.
  destruct (app_api_call_conditions
              (λ _, fixed_answer "It has a basis of eigenvectors.")
              (PyStr "sk-test") false None fs_scenario
              "What does it mean for a matrix to be diagonalizable?" true
              (build_request
                 "What does it mean for a matrix to be diagonalizable?"
                 (join nl [file_header "eigen.pdf";
                           "Eigenvalues are roots of the characteristic polynomial"])
                 "Compute the eigenvalues of [[2,0],[0,3]]"))
    as (_ & _ & _ & c & z & Hload & Hg & _).
  - vm_compute. do 2 right. left.
  - vm_compute in Hload. injection Hload as <- <-. exact Hg.
Defined.

(** X18. The environment variable wins over the secrets file, which is
    consulted only when the variable is unset or empty; a lookup that
    raises is swallowed and leaves the key as it was. *)
Theorem api_key_precedence (getenv : pyval) (secrets_exists : bool)
    (secret : option pyval) :
  (truthy getenv = true →
     load_api_key getenv secrets_exists secret = getenv) ∧
  (truthy getenv = false → secrets_exists = true →
     ∀ v, secret = Some v → load_api_key getenv secrets_exists secret = v) ∧
  (truthy getenv = false → secrets_exists = false ∨ secret = None →
     load_api_key getenv secrets_exists secret = getenv
     ∧ truthy (load_api_key getenv secrets_exists secret) = false).
Proof.
  unfold load_api_key. split; [|split].
  - intros ->. reflexivity.
  - intros -> -> v ->. reflexivity.
  - intros Hk [-> | ->]; rewrite Hk; simpl; [auto|].
    destruct secrets_exists; auto.
Qed.

Lemma api_key_precedence_witness :
  load_api_key (PyStr "sk-env") true (Some (PyStr "sk-file")) = PyStr "sk-env" ∧
  load_api_key (PyStr "") true (Some (PyStr "sk-file")) = PyStr "sk-file" ∧
  load_api_key PyNone true None = PyNone.
Proof.
  split; [|split].
  - exact (proj1 (api_key_precedence (PyStr "sk-env") true (Some (PyStr "sk-file")))
                 eq_refl).
  - exact (proj1 (proj2 (api_key_precedence (PyStr "") true (Some (PyStr "sk-file"))))
                 eq_refl eq_refl (PyStr "sk-file") eq_refl).
  - exact (proj1 (proj2 (proj2 (api_key_precedence PyNone true None))
                        eq_refl (or_intror eq_refl))).
Defined.

(** X19. The script is halted at start-up exactly when the environment
    variable is unset or empty and the secrets file is absent, its lookup
    raises, or it yields an empty value; it then shows the configuration
    error and nothing else: no title, no corpus is read and no request is
    sent. *)
Theorem app_stops_without_key (api : pyval → request → result pyval)
    (getenv : pyval) (secrets_exists : bool) (secret : option pyval)
    (fs : filesystem) (user_q : string) (submit : bool) :
  let no_key :=
    truthy getenv = false
    ∧ (secrets_exists = false ∨ secret = None
       ∨ ∃ v, secret = Some v ∧ truthy v = false) in
  ((app api getenv secrets_exists secret fs user_q submit).1 = Stopped ↔ no_key) ∧
  (no_key →
     app api getenv secrets_exists secret fs user_q submit
       = (Stopped, [StError NO_KEY_MESSAGE])).
Proof.
  intros no_key.
  assert (Hkey : truthy (load_api_key getenv secrets_exists secret) = false ↔ no_key).
  { unfold no_key, load_api_key.
    destruct (truthy getenv) eqn:Hg; simpl.
    - rewrite Hg. split; [discriminate | intros [? _]; discriminate].
    - destruct secrets_exists; simpl.
      + destruct secret as [v|].
        * split.
          -- intros Hv. split; [reflexivity|]. right; right. eauto.
          -- intros [_ [? | [? | (w & [= <-] & Hw)]]]; (discriminate || exact Hw).
        * rewrite Hg. split; auto.
      + rewrite Hg. split; auto. }
  unfold app.
  destruct (truthy (load_api_key getenv secrets_exists secret)); simpl.
  - split.
    + split; [discriminate|]. intros H. apply Hkey in H. discriminate.
    + intros H. apply Hkey in H. discriminate.
  - split; [|reflexivity]. split; [|reflexivity]. intros _. apply Hkey. reflexivity.
Qed.

Lemma app_stops_without_key_witness :
  app (λ _, fixed_answer "unused") (PyStr "") true None fs_scenario
      "What is a basis?" true
    = (Stopped, [StError NO_KEY_MESSAGE]).
Proof.
  apply app_stops_without_key. split; [reflexivity|]. right; left. reflexivity.
Defined.
